(** * WFS GetFeature handler of plansight-gis-server

    A shallow embedding of [mapFeature] and [wfsGetFeature].  The repository
    holds two revisions of the handler:

    - [src/unnamed/part_000]: reads [srsName], drops [$count] before the
      total-count query, skips [geom] in the GeoJSON properties
      (module [Part000]);
    - [src/src/wfs/getFeature.js]: the earlier revision, without [srsName]
      (module [GetFeatureJs]).

    JavaScript objects are association lists in insertion order, template
    literals are string concatenations of [js_to_string], the [async] handler
    is a computation in a small monad that logs every call it makes on the
    data source and on the response. *)

From Stdlib Require Import String Ascii List ZArith Bool Lia.
From stdpp Require Import base tactics option list strings pretty gmap.
Import ListNotations.

Local Open Scope string_scope.
Set Warnings "-register-all".

(** ** JavaScript values *)

(** The numbers of the host language.  Rows carry floating-point coordinates,
    so the development is parametric in the number type: it only needs the
    conversions the handler and the feature store perform. *)
Class JsNumber : Type := {
  num : Type;
  (** [`${n}`] *)
  num_to_string : num → string;
  (** array lengths, literals and aggregate counts *)
  num_of_nat : nat → num;
  (** the row bound a [LIMIT] parameter stands for; [None] for a value
      that does not bound the result *)
  num_limit : num → option nat;
  (** truthiness, as in [if (count)] *)
  num_truthy : num → bool;
  (** the comparison of the feature store, [a < b] *)
  num_ltb : num → num → bool;
  num_limit_of_nat : ∀ k, num_limit (num_of_nat k) = Some k
}.

Section Js.
Context `{JsNumber}.

(** A scalar held by a row or a parameter slot. *)
Inductive value : Type :=
  | VUndefined
  | VNull
  | VNum (n : num)
  | VStr (s : string).

(** [`${v}`] *)
Definition js_to_string (v : value) : string :=
  match v with
  | VUndefined => "undefined"
  | VNull => "null"
  | VNum n => num_to_string n
  | VStr s => s
  end.

(** ** Objects: keys in insertion order *)

(** An object is the list of its own properties in the order [Object.keys]
    lists them, which is the order of insertion for keys that are not array
    indices; column names are taken not to be array indices. *)
Definition obj (A : Type) : Type := list (string * A).

(** [Object.keys(o)] *)
Definition keys {A} (o : obj A) : list string := fst <$> o.

(** [o[k]], [None] for a key the object does not own *)
Fixpoint obj_get {A} (o : obj A) (k : string) : option A :=
  match o with
  | [] => None
  | (k', v) :: o' => if String.eqb k' k then Some v else obj_get o' k
  end.

(** [o[k] = v]: an owned key keeps its place, a new key goes last *)
Fixpoint obj_set {A} (o : obj A) (k : string) (v : A) : obj A :=
  match o with
  | [] => [(k, v)]
  | (k', v') :: o' =>
      if String.eqb k' k then (k', v) :: o' else (k', v') :: obj_set o' k v
  end.

(** [const { k, ...rest } = o] *)
Definition obj_remove {A} (o : obj A) (k : string) : obj A :=
  List.filter (λ kv, negb (String.eqb (fst kv) k)) o.

(** [row.k] on a row: [undefined] when the column is absent *)
Definition prop (o : obj value) (k : string) : value :=
  default VUndefined (obj_get o k).

(** [{ ...target, ...source }] continued on an object under construction:
    every own key of [source] is read and assigned, in key order. *)
Definition spread (target source : obj value) : obj value :=
  fold_left (λ o k, obj_set o k (prop source k)) (keys source) target.

Definition row : Type := obj value.


(** ** Exceptions *)

(** The outcome of code that may [throw]. *)
Inductive Result (A : Type) : Type :=
  | Ok (a : A)
  | Throw (message : string).
Arguments Ok {A} a.
Arguments Throw {A} message.

#[export] Instance Result_ret : MRet Result := λ A a, Ok a.
#[export] Instance Result_bind : MBind Result := λ A B f m,
  match m with
  | Ok a => f a
  | Throw e => Throw e
  end.

(** [for (let key of ks) { s = body(s, key) }], left at the first [throw] *)
Fixpoint for_of {S : Type} (body : S → string → Result S)
    (ks : list string) (s : S) : Result S :=
  match ks with
  | [] => Ok s
  | k :: ks' => s' ← body s k; for_of body ks' s'
  end.

(** [xs.map(f)] for a callback that may [throw] *)
Fixpoint map_throwing {A B : Type} (f : A → Result B) (xs : list A)
    : Result (list B) :=
  match xs with
  | [] => Ok []
  | x :: xs' => y ← f x; ys ← map_throwing f xs'; Ok (y :: ys)
  end.

(** ** Documents handed to the response *)

(** The object tree given to the XML builder: a scalar, an object whose
    keys starting with [@] become attributes, or an array of children. *)
Inductive xobj : Type :=
  | XVal (v : value)
  | XObj (fields : list (string * xobj))
  | XArr (items : list xobj).

Definition xfields (x : xobj) : obj xobj :=
  match x with
  | XObj fields => fields
  | _ => []
  end.

(** [x[k]] *)
Definition xget (x : xobj) (k : string) : xobj :=
  default (XVal VUndefined) (obj_get (xfields x) k).

(** [x[k] = v] *)
Definition xset (x : xobj) (k : string) (v : xobj) : xobj :=
  XObj (obj_set (xfields x) k v).

Definition xstr (s : string) : xobj := XVal (VStr s).

(** A key of an object node names an attribute when it starts with [@];
    the other keys of a feature element are its child elements. *)
Definition is_attribute_key (k : string) : bool :=
  match k with
  | String "@" _ => true
  | _ => false
  end.

Definition child_elements (x : xobj) : list string :=
  List.filter (λ k, negb (is_attribute_key k)) (keys (xfields x)).

(** The GeoJSON object literals. *)
Record Geometry : Type := {
  geometry_type : string;
  coordinates : list value
}.

Record Feature : Type := {
  feature_type : string;
  geometry : Geometry;
  properties : obj string
}.

Record FeatureCollection : Type := {
  collection_type : string;
  features : list Feature
}.

(** What [res.send] receives: the text of one of the two documents, kept
    here as the document itself. *)
Inductive Body : Type :=
  | JsonText (doc : FeatureCollection)
  | XmlText (doc : xobj).

(** ** Queries *)

Inductive Projection : Type :=
  | SelectAll
  | SelectCount (alias : string).

(** The two query templates of the handler, by their interpolated parts:
    [SELECT <projection> FROM all_features WHERE featureset IN (<in_list>)],
    then [AND x > $bbox0 AND y > $bbox1 AND x < $bbox2 AND y < $bbox3] when
    [bbox_clause], then [LIMIT $count] when [limit_clause]. *)
Record Sql : Type := {
  projection : Projection;
  in_list : list string;
  bbox_clause : bool;
  limit_clause : bool
}.

(** The named parameters a query text mentions. *)
Definition referenced (q : Sql) : list string :=
  in_list q
  ++ (if bbox_clause q then ["$bbox0"; "$bbox1"; "$bbox2"; "$bbox3"] else [])
  ++ (if limit_clause q then ["$count"] else []).

(** ** The feature store *)

(** Modelled from the spec: the data source ([currentDataSource.js] is not
    among the sources) "executes parameterized queries against a queryable
    feature store and returns rows as mapping-of-column-to-value".  The store
    is the content of the [all_features] view after the refresh.  The handler
    notes that the engine "can error out if you include params that don't
    match your sql": [strict_binding] tells whether this store does. *)
Record DataSource : Type := {
  all_features : list row;
  strict_binding : bool
}.

(** Modelled from the spec: [a = b] in the store, on scalars of the same
    kind. *)
Definition sql_eq (a b : value) : bool :=
  match a, b with
  | VStr s, VStr t => String.eqb s t
  | VNum m, VNum n => negb (num_ltb m n) && negb (num_ltb n m)
  | _, _ => false
  end.

(** Modelled from the spec: [a > b] and [a < b] in the store; a comparison
    with a missing value selects nothing. *)
Definition sql_gt (a b : value) : bool :=
  match a, b with
  | VNum m, VNum n => num_ltb n m
  | _, _ => false
  end.

Definition sql_lt (a b : value) : bool := sql_gt b a.

(** Modelled from the spec: the [WHERE] clause on one row, the parameters
    read from the mapping. *)
Definition where_clause (q : Sql) (params : obj value) (r : row) : bool :=
  existsb (λ p, sql_eq (prop r "featureset") (prop params p)) (in_list q)
  && (if bbox_clause q
      then sql_gt (prop r "x") (prop params "$bbox0")
           && sql_gt (prop r "y") (prop params "$bbox1")
           && sql_lt (prop r "x") (prop params "$bbox2")
           && sql_lt (prop r "y") (prop params "$bbox3")
      else true).

(** Modelled from the spec: the mapping binds exactly the parameters the
    text mentions. *)
Definition bindings_match (q : Sql) (params : obj value) : bool :=
  forallb (λ k, bool_decide (k ∈ referenced q)) (keys params)
  && forallb (λ k, bool_decide (k ∈ keys params)) (referenced q).

(** Modelled from the spec: [LIMIT v] keeps the first rows up to the bound. *)
Definition sql_limit (v : value) (rows : list row) : list row :=
  match v with
  | VNum n => from_option (λ k, take k rows) rows (num_limit n)
  | _ => rows
  end.

(** Modelled from the spec: what [queryFeaturePackage] answers.  The fetch
    query returns the selected rows, cut at the limit; the total-count query
    returns one row holding their number under the alias. *)
Definition run_query (ds : DataSource) (q : Sql) (params : obj value)
    : Result (list row) :=
  if strict_binding ds && negb (bindings_match q params)
  then Throw "parameters do not match the statement"
  else
    let matched := List.filter (where_clause q params) (all_features ds) in
    match projection q with
    | SelectAll =>
        Ok (if limit_clause q then sql_limit (prop params "$count") matched
            else matched)
    | SelectCount alias =>
        Ok [[(alias, VNum (num_of_nat (length matched)))]]
    end.

(** ** The handler's effects *)

(** Every call the handler makes on its collaborators. *)
Inductive Event : Type :=
  | Refresh (forceFull : bool)
  | Query (sql : Sql) (params : obj value)
  | ResSet (header content : string)
  | ResStatus (code : nat)
  | ResSend (body : Body).

(** An [async] computation: it extends the log of calls and returns or
    throws. *)
Definition IO (A : Type) : Type := list Event → Result A * list Event.

#[export] Instance IO_ret : MRet IO := λ A a log, (Ok a, log).
#[export] Instance IO_bind : MBind IO := λ A B f m log,
  match m log with
  | (Ok a, log') => f a log'
  | (Throw e, log') => (Throw e, log')
  end.

(** one call, appended to the log *)
Definition emit (e : Event) : IO unit := λ log, (Ok (), (log ++ [e])%list).

(** a synchronous computation inside the handler *)
Definition lift {A} (r : Result A) : IO A := λ log, (r, log).

(** [await dataSource.refresh(forceFull)] *)
Definition refresh (forceFull : bool) : IO unit := emit (Refresh forceFull).

(** [await dataSource.queryFeaturePackage(sql, { ...params })] *)
Definition queryFeaturePackage (ds : DataSource) (q : Sql)
    (params : obj value) : IO (list row) :=
  _ ← emit (Query q (spread [] params));
  lift (run_query ds q (spread [] params)).

(** The validated request parameters, as [parseWfsParams] returns them:
    [bbox] an array of numbers, [count] a number, [srsName] a string, each
    of them absent ([None]) when the request does not give it. *)
Record Parsed : Type := {
  typeNames : list string;
  bbox : option (list num);
  outputFormat : string;
  count : option num;
  srsName : option string
}.

End Js.

Arguments Ok {A} a.
Arguments Throw {A} message.
Arguments value {_}.
Arguments row {_}.
Arguments xobj {_}.
Arguments Geometry {_}.
Arguments Feature {_}.
Arguments FeatureCollection {_}.
Arguments Body {_}.
Arguments DataSource {_}.
Arguments Event {_}.
Arguments IO {_} A.
Arguments Parsed {_}.

(** ** What the two revisions share *)

Section Shared.
Context `{JsNumber}.

(** [`$param${n}`] and [`$bbox${i}`] *)
Definition param_slot (n : nat) : string := "$param" +:+ pretty n.
Definition bbox_slot (i : nat) : string := "$bbox" +:+ pretty i.

(** The first loop: [queryParams[`$param${n++}`] = typeName]. *)
Definition bindTypeNames (typeNames : list string) (queryParams : obj value)
    : obj value * nat :=
  fold_left
    (λ '(qp, n) typeName, (obj_set qp (param_slot n) (VStr typeName), S n))
    typeNames (queryParams, 0).

(** [typeNames.map((t, i) => `$param${i}`)], before the [join(',')] *)
Definition featureSets (typeNames : list string) : list string :=
  imap (λ i _, param_slot i) typeNames.

(** [for (let i = 0; i < bbox.length; i++) queryParams[`$bbox${i}`] = bbox[i]] *)
Definition bindBbox (bbox : list num) (queryParams : obj value) : obj value :=
  fold_left (λ qp i, obj_set qp (bbox_slot i.1) (VNum i.2))
    (imap (λ i b, (i, b)) bbox) queryParams.

(** [rows[0][column]] *)
Definition first_column (rows : list row) (column : string) : Result value :=
  match rows with
  | [] => Throw "TypeError: cannot read properties of undefined"
  | r :: _ => Ok (prop r column)
  end.

(** [featureXml['wfs:member'][tag][key] = v] *)
Definition member_set (featureXml : xobj) (tag key : string) (v : xobj) : xobj :=
  let member := xget featureXml "wfs:member" in
  xset featureXml "wfs:member" (xset member tag (xset (xget member tag) key v)).

Definition gmlPoint (urn : string) (feature : row) (pos : string) : xobj :=
  XObj [("gml:Point",
         XObj [("@srsName", xstr urn);
               ("@srsDimension", XVal (VNum (num_of_nat 2)));
               ("@gml:id", xstr ("GmlPoint." +:+ js_to_string (prop feature "id")));
               ("gml:pos", xstr pos)])].

End Shared.

(** ** The handler that reads [srsName]: [src/unnamed/part_000] *)

Module Part000.
Section Handler.
Context `{JsNumber}.

(** The set imported from [excluded.js]; its content is not among the
    sources, so it is a parameter. *)
Variable EXCLUDED_WFS_COLUMNS : gset string.

(** [mapFeature(serverUrl, feature)] *)
Definition mapFeature (serverUrl : string) (feature : row) : row :=
  spread
    [("viewerUrl",
      VStr (serverUrl +:+ "/viewer#camera="
            +:+ js_to_string (prop feature "latitude") +:+ ","
            +:+ js_to_string (prop feature "longitude") +:+ ",18.00z"))]
    feature.

(** [queryParams] as it stands before the fetch query. *)
Definition buildQueryParams (p : Parsed) : obj value :=
  let queryParams := (bindTypeNames (typeNames p) []).1 in
  let queryParams :=
    match bbox p with
    | Some b => bindBbox b queryParams
    | None => queryParams
    end in
  match count p with
  | Some c => obj_set queryParams "$count" (VNum c)
  | None => queryParams
  end.

Definition fetchSql (p : Parsed) : Sql :=
  {| projection := SelectAll;
     in_list := featureSets (typeNames p);
     bbox_clause := bool_decide (bbox p ≠ None);
     limit_clause := bool_decide (count p ≠ None) |}.

Definition totalCountSql (p : Parsed) : Sql :=
  {| projection := SelectCount "totalCount";
     in_list := featureSets (typeNames p);
     bbox_clause := bool_decide (bbox p ≠ None);
     limit_clause := false |}.

(** Lines 30-78: the fetch query and, under a count limit, the total-count
    query.  Returns [features] and [numberMatched]. *)
Definition fetchFeatures (dataSource : DataSource) (p : Parsed)
    : IO (list row * value) :=
  let queryParams := buildQueryParams p in
  features ← queryFeaturePackage dataSource (fetchSql p) queryParams;
  let numberMatched := VNum (num_of_nat (length features)) in
  match count p with
  | Some _ =>
      let remainingQueryParams := obj_remove queryParams "$count" in
      totalCountResult ←
        queryFeaturePackage dataSource (totalCountSql p) remainingQueryParams;
      numberMatched ← lift (first_column totalCountResult "totalCount");
      mret (features, numberMatched)
  | None => mret (features, numberMatched)
  end.

(** The callback of the GeoJSON branch, lines 87-117. *)
Definition geojsonFeature (srsName : option string) (feature : row) : Feature :=
  let properties := [("GmlID", "Point." +:+ js_to_string (prop feature "id"))] in
  let properties :=
    fold_left
      (λ properties key,
         if String.eqb key "geom" then properties
         else obj_set properties key (js_to_string (prop feature key)))
      (keys feature) properties in
  let coordinates := [prop feature "x"; prop feature "y"] in
  let coordinates :=
    if bool_decide (srsName = Some "EPSG:4326")
    then [prop feature "longitude"; prop feature "latitude"]
    else coordinates in
  {| feature_type := "Feature";
     geometry := {| geometry_type := "Point"; coordinates := coordinates |};
     properties := properties |}.

(** The body of the column loop of the GML branch, lines 139-167. *)
Definition gmlColumn (srsName : option string) (feature : row)
    (featureXml : xobj) (key : string) : Result xobj :=
  let tag := js_to_string (prop feature "featureset") in
  if bool_decide (key ∈ EXCLUDED_WFS_COLUMNS) then Ok featureXml
  else if String.eqb key "geom" then
    if bool_decide (srsName = Some "EPSG:3857") then
      Ok (member_set featureXml tag key
            (gmlPoint "urn:ogc:def:crs:EPSG::3857" feature
               (js_to_string (prop feature "x") +:+ " "
                +:+ js_to_string (prop feature "y"))))
    else if bool_decide (srsName = Some "EPSG:4326") then
      Ok (member_set featureXml tag key
            (gmlPoint "urn:ogc:def:crs:EPSG::4326" feature
               (js_to_string (prop feature "latitude") +:+ " "
                +:+ js_to_string (prop feature "longitude"))))
    else Throw "unsupported SRS"
  else
    Ok (member_set featureXml tag key (xstr (js_to_string (prop feature key)))).

(** The callback of the GML branch, lines 132-171. *)
Definition gmlFeature (srsName : option string) (feature : row) : Result xobj :=
  let featureXml :=
    XObj [("wfs:member", XObj [("@xmlns:wfs", xstr "http://www.opengis.net/wfs/2.0")])] in
  let featureXml :=
    xset featureXml "wfs:member"
      (xset (xget featureXml "wfs:member")
         (js_to_string (prop feature "featureset"))
         (XObj [("@gml:id", xstr ("Point." +:+ js_to_string (prop feature "id")))])) in
  for_of (gmlColumn srsName feature) (keys feature) featureXml.

Definition gmlCollection (numberReturned : nat) (numberMatched : value)
    (members : list xobj) : xobj :=
  XObj [("wfs:FeatureCollection",
         XObj [("@xmlns:wfs", xstr "http://www.opengis.net/wfs/2.0");
               ("@xmlns:gml", xstr "http://www.opengis.net/gml/3.2");
               ("@xmlns:xsi", xstr "http://www.w3.org/2001/XMLSchema-instance");
               ("@numberReturned", XVal (VNum (num_of_nat numberReturned)));
               ("@numberMatched", XVal numberMatched);
               ("#", XArr members)])].

(** [wfsGetFeature(req, res)]: [parsed] is what [parseWfsParams(req, res)]
    returned ([None] when it answered the request itself), [serverUrl] what
    [getServerUrl(req)] returns. *)
Definition wfsGetFeature (dataSource : DataSource) (serverUrl : string)
    (parsed : option Parsed) : IO unit :=
  _ ← refresh false;
  match parsed with
  | None => mret ()
  | Some p =>
      '(features, numberMatched) ← fetchFeatures dataSource p;
      let features := map (mapFeature serverUrl) features in
      if String.eqb (outputFormat p) "GEOJSON" then
        let obj :=
          {| collection_type := "FeatureCollection";
             features := map (geojsonFeature (srsName p)) features |} in
        _ ← emit (ResSet "Content-Type" "application/json");
        _ ← emit (ResStatus 200);
        emit (ResSend (JsonText obj))
      else
        members ← lift (map_throwing (gmlFeature (srsName p)) features);
        let obj := gmlCollection (length features) numberMatched members in
        _ ← emit (ResSet "Content-Type" "text/xml");
        _ ← emit (ResStatus 200);
        emit (ResSend (XmlText obj))
  end.

End Handler.
End Part000.

(** ** The earlier revision: [src/src/wfs/getFeature.js] *)

Module GetFeatureJs.
Section Handler.
Context `{JsNumber}.

Variable EXCLUDED_WFS_COLUMNS : gset string.

(** [mapFeature(serverUrl, feature)] *)
Definition mapFeature (serverUrl : string) (feature : row) : row :=
  spread
    [("viewerUrl",
      VStr (serverUrl +:+ "/viewer#camera="
            +:+ js_to_string (prop feature "latitude") +:+ ","
            +:+ js_to_string (prop feature "longitude") +:+ ",18.00z"))]
    feature.

(** [if (count)]: a limit of zero counts as no limit here. *)
Definition count_given (p : Parsed) : bool :=
  from_option num_truthy false (count p).

Definition buildQueryParams (p : Parsed) : obj value :=
  let queryParams := (bindTypeNames (typeNames p) []).1 in
  let queryParams :=
    match bbox p with
    | Some b => bindBbox b queryParams
    | None => queryParams
    end in
  match count p with
  | Some c => if num_truthy c then obj_set queryParams "$count" (VNum c)
              else queryParams
  | None => queryParams
  end.

Definition fetchSql (p : Parsed) : Sql :=
  {| projection := SelectAll;
     in_list := featureSets (typeNames p);
     bbox_clause := bool_decide (bbox p ≠ None);
     limit_clause := count_given p |}.

Definition totalCountSql (p : Parsed) : Sql :=
  {| projection := SelectCount "COUNT";
     in_list := featureSets (typeNames p);
     bbox_clause := bool_decide (bbox p ≠ None);
     limit_clause := false |}.

(** Lines 29-76: the total-count query runs under a count limit or a
    bounding box, with the whole of [queryParams]. *)
Definition fetchFeatures (dataSource : DataSource) (p : Parsed)
    : IO (list row * value) :=
  let queryParams := buildQueryParams p in
  features ← queryFeaturePackage dataSource (fetchSql p) queryParams;
  if count_given p || bool_decide (bbox p ≠ None) then
    numberMatched ←
      queryFeaturePackage dataSource (totalCountSql p) queryParams;
    numberMatched ← lift (first_column numberMatched "COUNT");
    mret (features, numberMatched)
  else mret (features, VNum (num_of_nat (length features))).

(** The callback of the GeoJSON branch, lines 85-105. *)
Definition geojsonFeature (feature : row) : Feature :=
  let properties := [("GmlID", "Point." +:+ js_to_string (prop feature "id"))] in
  let properties :=
    fold_left
      (λ properties key, obj_set properties key (js_to_string (prop feature key)))
      (keys feature) properties in
  {| feature_type := "Feature";
     geometry := {| geometry_type := "Point";
                    coordinates := [prop feature "x"; prop feature "y"] |};
     properties := properties |}.

(** The body of the column loop of the GML branch, lines 127-142. *)
Definition gmlColumn (feature : row) (featureXml : xobj) (key : string) : xobj :=
  let tag := js_to_string (prop feature "featureset") in
  if bool_decide (key ∈ EXCLUDED_WFS_COLUMNS) then featureXml
  else if String.eqb key "geom" then
    member_set featureXml tag key
      (gmlPoint "urn:ogc:def:crs:EPSG::3857" feature
         (js_to_string (prop feature "x") +:+ " "
          +:+ js_to_string (prop feature "y")))
  else member_set featureXml tag key (xstr (js_to_string (prop feature key))).

(** The callback of the GML branch, lines 120-146. *)
Definition gmlFeature (feature : row) : xobj :=
  let featureXml :=
    XObj [("wfs:member", XObj [("@xmlns:wfs", xstr "http://www.opengis.net/wfs/2.0")])] in
  let featureXml :=
    xset featureXml "wfs:member"
      (xset (xget featureXml "wfs:member")
         (js_to_string (prop feature "featureset"))
         (XObj [("@gml:id", xstr ("Point." +:+ js_to_string (prop feature "id")))])) in
  fold_left (gmlColumn feature) (keys feature) featureXml.

Definition gmlCollection (serverUrl : string) (numberReturned : nat)
    (numberMatched : value) (members : list xobj) : xobj :=
  XObj [("wfs:FeatureCollection",
         XObj [("@xmlns:wfs", xstr "http://www.opengis.net/wfs/2.0");
               ("@xmlns:gml", xstr "http://www.opengis.net/gml/3.2");
               ("@xmlns:xsi",
                xstr ("http://www.w3.org/2001/XMLSchema-instance " +:+ serverUrl
                      +:+ "/?SERVICE=WFS&VERSION=2.0.0&REQUEST=DescribeFeatureType&TYPENAME=plans"));
               ("@numberReturned", XVal (VNum (num_of_nat numberReturned)));
               ("@numberMatched", XVal numberMatched);
               ("#", XArr members)])].

(** [wfsGetFeature(req, res)]; [protocol] is [req.protocol] and [host] is
    [req.get('host')]. *)
Definition wfsGetFeature (dataSource : DataSource) (protocol : string)
    (host : value) (parsed : option Parsed) : IO unit :=
  _ ← refresh false;
  match parsed with
  | None => mret ()
  | Some p =>
      '(features, numberMatched) ← fetchFeatures dataSource p;
      let serverUrl := protocol +:+ "://" +:+ js_to_string host in
      let features := map (mapFeature serverUrl) features in
      if String.eqb (outputFormat p) "GEOJSON" then
        let obj :=
          {| collection_type := "FeatureCollection";
             features := map geojsonFeature features |} in
        _ ← emit (ResSet "Content-Type" "application/json");
        _ ← emit (ResStatus 200);
        emit (ResSend (JsonText obj))
      else
        let obj :=
          gmlCollection serverUrl (length features) numberMatched
            (map gmlFeature features) in
        _ ← emit (ResSet "Content-Type" "text/xml");
        _ ← emit (ResStatus 200);
        emit (ResSend (XmlText obj))
  end.

End Handler.
End GetFeatureJs.

(** ** Notions the properties are stated with *)

Section Notions.
Context `{JsNumber}.
Variable EXCLUDED_WFS_COLUMNS : gset string.
Implicit Types (p : Parsed) (ds : DataSource) (feature r : row)
  (k key tag : string) (srsName : option string) (element : obj xobj)
  (typeNames : list string) (bbox : list num).

(** The [wfs:member] wrapper around a feature element. *)
Definition wrap_member tag element : xobj :=
  XObj [("wfs:member",
         XObj (obj_set [("@xmlns:wfs", xstr "http://www.opengis.net/wfs/2.0")]
                 tag (XObj element)))].

(** The feature element inside the wrapper. *)
Definition feature_element (featureXml : xobj) tag : xobj :=
  xget (xget featureXml "wfs:member") tag.

(** The three-way branch on [srsName] at the [geom] column. *)
Definition gmlGeometry srsName feature : Result xobj :=
  if bool_decide (srsName = Some "EPSG:3857") then
    Ok (gmlPoint "urn:ogc:def:crs:EPSG::3857" feature
          (js_to_string (prop feature "x") +:+ " "
           +:+ js_to_string (prop feature "y")))
  else if bool_decide (srsName = Some "EPSG:4326") then
    Ok (gmlPoint "urn:ogc:def:crs:EPSG::4326" feature
          (js_to_string (prop feature "latitude") +:+ " "
           +:+ js_to_string (prop feature "longitude")))
  else Throw "unsupported SRS".

(** What the column loop assigns under [key]. *)
Definition gmlChild srsName feature key : Result xobj :=
  if String.eqb key "geom" then gmlGeometry srsName feature
  else Ok (xstr (js_to_string (prop feature key))).

(** The column loop seen from the feature element. *)
Definition gmlElementColumn srsName feature element key : Result (obj xobj) :=
  if bool_decide (key ∈ EXCLUDED_WFS_COLUMNS) then Ok element
  else v ← gmlChild srsName feature key; Ok (obj_set element key v).

Definition child_or_undefined (c : Result xobj) : xobj :=
  match c with
  | Ok v => v
  | Throw _ => XVal VUndefined
  end.

(** The bindings [g n ↦ w b0], [g (n+1) ↦ w b1], ... *)
Definition slots {B : Type} (g : nat → string) (w : B → value)
    (n : nat) (l : list B) : obj value :=
  imap (λ i b, (g (n + i), w b)) l.

(** The bindings of the type names and of the bounding box. *)
Definition typeSlots typeNames : obj value := slots param_slot VStr 0 typeNames.
Definition bboxSlots bbox : obj value := slots bbox_slot VNum 0 bbox.
Definition countSlot (count : option num) : obj value :=
  from_option (λ c, [("$count", VNum c)]) [] count.

(** The bounding box is the 4-tuple of the data model. *)
Definition bbox_wf p : Prop := ∀ b, bbox p = Some b → length b = 4.

(** [bbox[i]], as the store compares it *)
Definition bbox_component (b : list num) (i : nat) : value :=
  from_option VNum VUndefined (b !! i).

(** The filter in the words of the specification: the feature set of the
    row is one of the type names and, under a bounding box,
    [x > bbox[0] AND y > bbox[1] AND x < bbox[2] AND y < bbox[3]]. *)
Definition matchesFilter p r : bool :=
  existsb (λ t, sql_eq (prop r "featureset") (VStr t)) (typeNames p)
  && match bbox p with
     | Some b =>
         sql_gt (prop r "x") (bbox_component b 0)
         && sql_gt (prop r "y") (bbox_component b 1)
         && sql_lt (prop r "x") (bbox_component b 2)
         && sql_lt (prop r "y") (bbox_component b 3)
     | None => true
     end.

(** All the rows of the store that match the filter, and their number
    [M]. *)
Definition matching ds p : list row := List.filter (matchesFilter p) (all_features ds).
Definition trueMatchCount ds p : nat := length (matching ds p).

(** The rows the fetch query returns, and [numberMatched]. *)
Definition fetched ds p : list row :=
  match count p with
  | Some c => sql_limit (VNum c) (matching ds p)
  | None => matching ds p
  end.

Definition numberMatched ds p : value :=
  match count p with
  | Some _ => VNum (num_of_nat (trueMatchCount ds p))
  | None => VNum (num_of_nat (length (fetched ds p)))
  end.

(** The queries of one request. *)
Definition queries p : list Event :=
  Query (Part000.fetchSql p) (Part000.buildQueryParams p)
  :: match count p with
     | Some _ => [Query (Part000.totalCountSql p)
                    (obj_remove (Part000.buildQueryParams p) "$count")]
     | None => []
     end.

(** A call on [queryFeaturePackage], and one that runs the total-count
    query. *)
Definition is_query (e : Event) : bool :=
  match e with
  | Query _ _ => true
  | _ => false
  end.

Definition is_total_count (e : Event) : bool :=
  match e with
  | Query q _ => match projection q with SelectCount _ => true | SelectAll => false end
  | _ => false
  end.

(** [getFeature.js] tests the count with [if (count)]: a falsy count is
    handled like an absent one. *)
Definition drop_falsy_count p : Parsed :=
  {| typeNames := typeNames p;
     bbox := bbox p;
     outputFormat := outputFormat p;
     count := if GetFeatureJs.count_given p then count p else None;
     srsName := srsName p |}.

(** The same request under another [outputFormat]. *)
Definition with_format p (format : string) : Parsed :=
  {| typeNames := typeNames p;
     bbox := bbox p;
     outputFormat := format;
     count := count p;
     srsName := srsName p |}.

(** The rows that carry a [geom] column. *)
Definition has_geom r : Prop := "geom" ∈ keys r.

End Notions.

(** ** Integers as numbers *)

Definition Z_limit (z : Z) : option nat :=
  if (z <? 0)%Z then None else Some (Z.to_nat z).

(** Integers are numbers; the concrete requests below run on them. *)
#[export] Instance JsNumber_Z : JsNumber.
Proof.
  refine {| num := Z;
            num_to_string := pretty;
            num_of_nat := Z.of_nat;
            num_limit := Z_limit;
            num_truthy := λ z, negb (z =? 0)%Z;
            num_ltb := Z.ltb;
            num_limit_of_nat := _ |}.
  intros k. unfold Z_limit. destruct (Z.ltb_spec (Z.of_nat k) 0); [lia|].
  by rewrite Nat2Z.id.
Defined.

(** * Concrete requests *)

(** A small store of parks and one request per branch, on integer
    coordinates. *)
Module Examples.

Definition excluded : gset string := {["id"; "featureset"]}.

Definition park (id x y : Z) : row :=
  [("id", VNum id); ("featureset", VStr "parks"); ("x", VNum x); ("y", VNum y);
   ("latitude", VNum 3%Z); ("longitude", VNum 4%Z); ("geom", VNull);
   ("name", VStr "Central")].

(** A row with a column named [GmlID]. *)
Definition tagged : row :=
  [("id", VNum 7%Z); ("featureset", VStr "parks"); ("x", VNum 1%Z); ("y", VNum 2%Z);
   ("latitude", VNum 3%Z); ("longitude", VNum 4%Z); ("geom", VNull);
   ("GmlID", VStr "mine")].

Definition store : DataSource :=
  {| all_features := [park 7 1 2; park 8 3 4; park 9 5 6];
     strict_binding := true |}.

Definition request (format : string) (limit : option Z) (srs : option string)
    : Parsed :=
  {| typeNames := ["parks"];
     bbox := Some [0; 0; 10; 10]%Z;
     outputFormat := format;
     count := limit;
     srsName := srs |}.

(** The scenario of the specification: twelve parks inside the box, a
    limit of five. *)
Definition twelve_parks : DataSource :=
  {| all_features := map (λ i, park (Z.of_nat i) 1 2) (seq 1 12);
     strict_binding := true |}.

(** Park 7 as the handler decorates it, and its GML member. *)
Definition decorated_park : row := Part000.mapFeature "http://host" (park 7 1 2).

Definition member_of (srs : option string) : xobj :=
  match Part000.gmlFeature excluded srs decorated_park with
  | Ok xml => xml
  | Throw _ => XVal VUndefined
  end.

(** A bounding box of three components only. *)
Definition short_bbox_request : Parsed :=
  {| typeNames := ["parks"];
     bbox := Some [0; 0; 10]%Z;
     outputFormat := "GML";
     count := None;
     srsName := Some "EPSG:3857" |}.

(** The XML document a run sent last, and the first member of a
    collection. *)
Definition sent_xml (outcome : Result unit * list Event) : xobj :=
  match last outcome.2 with
  | Some (ResSend (XmlText doc)) => doc
  | _ => XVal VUndefined
  end.

Definition first_member (collection : xobj) : xobj :=
  match xget collection "#" with
  | XArr (member :: _) => member
  | _ => XVal VUndefined
  end.

End Examples.

(** Membership and equations on concrete data, by evaluation. *)
Ltac by_evaluation :=
  first [ vm_compute; reflexivity
        | apply (bool_decide_unpack _); vm_compute; exact I ].

(** * Properties *)

#[local] Arguments String.eqb : simpl never.
#[local] Arguments String.append : simpl never.

(** ** Objects *)

Section ObjFacts.
Context {A : Type}.
Implicit Types (o : obj A) (k : string) (v : A).

Lemma obj_get_set_eq o k v : obj_get (obj_set o k v) k = Some v.
Proof.
  induction o as [|[k' v'] o IH]; simpl.
  - by rewrite String.eqb_refl.
  - destruct (String.eqb_spec k' k) as [->|Hne]; simpl.
    + by rewrite String.eqb_refl.
    + by destruct (String.eqb_spec k' k).
Qed.

Lemma obj_get_set_ne o k k' v :
  k ≠ k' → obj_get (obj_set o k v) k' = obj_get o k'.
Proof.
  intros Hne. induction o as [|[k0 v0] o IH]; simpl.
  - by destruct (String.eqb_spec k k').
  - destruct (String.eqb_spec k0 k) as [->|Hk]; simpl.
    + by destruct (String.eqb_spec k k').
    + by rewrite IH.
Qed.

Lemma obj_set_set o k v w : obj_set (obj_set o k v) k w = obj_set o k w.
Proof.
  induction o as [|[k' v'] o IH]; simpl.
  - by rewrite String.eqb_refl.
  - destruct (String.eqb_spec k' k) as [->|Hne]; simpl.
    + by rewrite String.eqb_refl.
    + destruct (String.eqb_spec k' k); [done|]. by rewrite IH.
Qed.

Lemma obj_get_None o k : obj_get o k = None ↔ k ∉ keys o.
Proof.
  unfold keys. induction o as [|[k' v'] o IH]; simpl.
  - split; [intros _; apply not_elem_of_nil | done].
  - rewrite not_elem_of_cons. destruct (String.eqb_spec k' k) as [->|Hne].
    + split; [done | by intros [? _]].
    + rewrite IH. split; [by intros ?; split | by intros [_ ?]].
Qed.

Lemma obj_get_is_Some o k : is_Some (obj_get o k) ↔ k ∈ keys o.
Proof.
  destruct (obj_get o k) as [v|] eqn:E.
  - split; [intros _ | by eauto].
    destruct (decide (k ∈ keys o)) as [|Hn]; [done|].
    apply obj_get_None in Hn. congruence.
  - split; [by intros [? ?] | intros Hin]. by apply obj_get_None in E.
Qed.

Lemma obj_set_fresh o k v : k ∉ keys o → obj_set o k v = (o ++ [(k, v)])%list.
Proof.
  unfold keys. induction o as [|[k' v'] o IH]; simpl; [done|].
  rewrite not_elem_of_cons. intros [Hne Hnin].
  destruct (String.eqb_spec k' k); [congruence|]. by rewrite IH.
Qed.

Lemma elem_of_keys_set o k k' v :
  k' ∈ keys (obj_set o k v) ↔ k' = k ∨ k' ∈ keys o.
Proof.
  rewrite <-!obj_get_is_Some. destruct (decide (k = k')) as [->|Hne].
  - rewrite obj_get_set_eq. split; [by left | by eauto].
  - rewrite obj_get_set_ne by done. split; [by right | by intros [->|?]].
Qed.

Lemma obj_get_app o1 o2 k :
  obj_get (o1 ++ o2)%list k
  = match obj_get o1 k with Some v => Some v | None => obj_get o2 k end.
Proof.
  induction o1 as [|[k' v'] o1 IH]; simpl; [done|].
  by destruct (String.eqb_spec k' k).
Qed.

Lemma keys_app o1 o2 : keys (o1 ++ o2)%list = (keys o1 ++ keys o2)%list.
Proof. unfold keys. apply fmap_app. Qed.

Lemma obj_get_remove o k k' :
  obj_get (obj_remove o k) k' = if String.eqb k k' then None else obj_get o k'.
Proof.
  unfold obj_remove. induction o as [|[k0 v0] o IH]; simpl.
  - by destruct (String.eqb k k').
  - destruct (String.eqb_spec k0 k) as [->|Hne]; simpl.
    + rewrite IH. by destruct (String.eqb_spec k k').
    + rewrite IH. destruct (String.eqb_spec k k') as [Heq|?]; [|done].
      subst k'. by destruct (String.eqb_spec k0 k).
Qed.

End ObjFacts.

Lemma obj_get_elem_of {A} (o : obj A) k v :
  NoDup (keys o) → (k, v) ∈ o → obj_get o k = Some v.
Proof.
  unfold keys. induction o as [|[k' v'] o IH]; simpl.
  - by intros _ ?%elem_of_nil.
  - rewrite NoDup_cons. intros [Hnin Hnd] Hin.
    apply elem_of_cons in Hin as [[= <- <-]|Hin].
    + by rewrite String.eqb_refl.
    + destruct (String.eqb_spec k' k) as [->|Hne]; [|by apply IH].
      destruct Hnin. apply list_elem_of_fmap. by exists (k, v).
Qed.



(** ** Assignments in a loop over keys *)

Section Loops.
Context {A : Type}.
Implicit Types (o : obj A) (k : string) (ks : list string).

(** What a loop [for (key of ks) if (!skip(key)) o[key] = f(key)] leaves
    under each key. *)
Lemma loop_get (skip : string → bool) (f : string → A) ks o k :
  obj_get (fold_left (λ o key, if skip key then o else obj_set o key (f key)) ks o) k
  = if bool_decide (k ∈ ks) && negb (skip k) then Some (f k) else obj_get o k.
Proof.
  revert o. induction ks as [|a ks IH]; intros o; simpl; [done|].
  rewrite IH. destruct (decide (k = a)) as [->|Hne].
  - rewrite (bool_decide_eq_true_2 (a ∈ a :: ks)) by apply list_elem_of_here.
    destruct (skip a) eqn:Hs; simpl.
    + by rewrite andb_false_r.
    + rewrite andb_true_r, obj_get_set_eq. by destruct (bool_decide (a ∈ ks)).
  - assert (bool_decide (k ∈ a :: ks) = bool_decide (k ∈ ks)) as ->.
    { apply bool_decide_ext. rewrite elem_of_cons.
      split; [by intros [?|?] | by right]. }
    destruct (skip a); [done|]. by rewrite obj_get_set_ne.
Qed.


End Loops.

Section JsFacts.
Context `{JsNumber}.
Implicit Types (o target source : row) (k : string).



Lemma spread_get target source k :
  obj_get (spread target source) k
  = match obj_get source k with Some v => Some v | None => obj_get target k end.
Proof.
  unfold spread.
  rewrite (loop_get (λ _, false) (prop source) (keys source) target k).
  rewrite andb_true_r. case_bool_decide as Hin.
  - apply obj_get_is_Some in Hin as [v Hv]. unfold prop. by rewrite Hv.
  - apply obj_get_None in Hin. by rewrite Hin.
Qed.

Lemma keys_spread target source k :
  k ∈ keys (spread target source) ↔ k ∈ keys target ∨ k ∈ keys source.
Proof.
  rewrite <-!obj_get_is_Some, spread_get.
  destruct (obj_get source k) as [v|]; split; eauto.
  by intros [?|[? ?]].
Qed.

Lemma prop_spread target source k :
  prop (spread target source) k
  = if bool_decide (k ∈ keys source) then prop source k else prop target k.
Proof.
  unfold prop. rewrite spread_get. case_bool_decide as Hin.
  - apply obj_get_is_Some in Hin as [v ->]. done.
  - apply obj_get_None in Hin. by rewrite Hin.
Qed.

(** Copying an object with distinct keys onto fresh keys appends it. *)
Lemma spread_entries source (l : row) target :
  (∀ k v, (k, v) ∈ l → obj_get source k = Some v) →
  NoDup (keys target ++ keys l) →
  fold_left (λ o k, obj_set o k (prop source k)) (keys l) target
  = (target ++ l)%list.
Proof.
  revert target. induction l as [|[k v] l IH]; intros target Hsrc Hnd; simpl.
  - by rewrite app_nil_r.
  - assert (prop source k = v) as ->.
    { unfold prop. rewrite (Hsrc k v); [done | apply list_elem_of_here]. }
    rewrite obj_set_fresh.
    + rewrite IH.
      * by rewrite <-app_assoc.
      * intros k' v' Hin. apply Hsrc. by apply list_elem_of_further.
      * rewrite keys_app. simpl. by rewrite <-app_assoc.
    + simpl in Hnd. apply NoDup_app in Hnd as (_ & Hdisj & _).
      intros Hin. apply (Hdisj k Hin). apply list_elem_of_here.
Qed.

Lemma spread_nil o : NoDup (keys o) → spread [] o = o.
Proof.
  intros Hnd. unfold spread. apply (spread_entries o o []); [|done].
  intros k v. by apply obj_get_elem_of.
Qed.

End JsFacts.

(** ** The feature decorator *)

Section DecoratorFacts.
Context `{JsNumber}.
Implicit Types (feature r : row) (k serverUrl : string).

Lemma mapFeature_get serverUrl feature k :
  k ∈ keys feature →
  obj_get (Part000.mapFeature serverUrl feature) k = obj_get feature k.
Proof.
  intros [v Hv]%obj_get_is_Some. unfold Part000.mapFeature.
  by rewrite spread_get, Hv.
Qed.

Lemma mapFeature_keys serverUrl feature k :
  k ∈ keys (Part000.mapFeature serverUrl feature)
  ↔ k = "viewerUrl" ∨ k ∈ keys feature.
Proof.
  unfold Part000.mapFeature. rewrite keys_spread. unfold keys at 1. simpl.
  by rewrite list_elem_of_singleton.
Qed.

Lemma mapFeature_prop serverUrl feature k :
  k ≠ "viewerUrl" → prop (Part000.mapFeature serverUrl feature) k = prop feature k.
Proof.
  intros Hne. unfold Part000.mapFeature. rewrite prop_spread.
  case_bool_decide as Hin; [done|].
  apply obj_get_None in Hin. unfold prop. rewrite Hin. simpl.
  by destruct (String.eqb_spec "viewerUrl" k).
Qed.


End DecoratorFacts.

(** ** The GeoJSON branch *)

Section GeoJsonFacts.
Context `{JsNumber}.
Implicit Types (feature r : row) (k serverUrl : string) (srsName : option string).

Lemma geojson_properties_get srsName feature k :
  obj_get (properties (Part000.geojsonFeature srsName feature)) k
  = if bool_decide (k ∈ keys feature) && negb (String.eqb k "geom")
    then Some (js_to_string (prop feature k))
    else if String.eqb "GmlID" k
         then Some ("Point." +:+ js_to_string (prop feature "id"))
         else None.
Proof.
  unfold Part000.geojsonFeature. simpl.
  by rewrite (loop_get (λ key, String.eqb key "geom")
                (λ key, js_to_string (prop feature key))).
Qed.

Lemma geojson_coordinates srsName feature :
  coordinates (geometry (Part000.geojsonFeature srsName feature))
  = if bool_decide (srsName = Some "EPSG:4326")
    then [prop feature "longitude"; prop feature "latitude"]
    else [prop feature "x"; prop feature "y"].
Proof. done. Qed.

(** C3.  In the GeoJSON branch the coordinates of a feature are the row's
    [longitude, latitude] when [srsName] is [EPSG:4326], and the row's
    [x, y] when it is absent or [EPSG:3857]. *)
Theorem geojson_coordinate_order serverUrl srsName r :
  let feature := Part000.geojsonFeature srsName (Part000.mapFeature serverUrl r) in
  (srsName = Some "EPSG:4326" →
   coordinates (geometry feature) = [prop r "longitude"; prop r "latitude"])
  ∧ (srsName = None ∨ srsName = Some "EPSG:3857" →
     coordinates (geometry feature) = [prop r "x"; prop r "y"]).
Proof.
  cbv zeta. rewrite geojson_coordinates, !mapFeature_prop by done. split.
  - intros ->. by rewrite bool_decide_eq_true_2.
  - intros Hsrs. rewrite bool_decide_eq_false_2; [done|].
    by destruct Hsrs as [->| ->].
Qed.

(** C5.  In the GeoJSON branch every column of the row other than [geom]
    is a key of [properties] holding the column's value as a string, and
    [geom] is no key of [properties]. *)
Theorem geojson_geom_never_stringified serverUrl srsName r :
  let feature := Part000.geojsonFeature srsName (Part000.mapFeature serverUrl r) in
  (∀ k, k ∈ keys r → k ≠ "geom" →
        obj_get (properties feature) k = Some (js_to_string (prop r k)))
  ∧ "geom" ∉ keys (properties feature).
Proof.
  cbv zeta. split.
  - intros k Hin Hgeom. rewrite geojson_properties_get.
    rewrite bool_decide_eq_true_2 by (apply mapFeature_keys; by right).
    destruct (String.eqb_spec k "geom"); [done|]. simpl.
    unfold prop. by rewrite mapFeature_get.
  - apply obj_get_None. rewrite geojson_properties_get. simpl.
    by rewrite andb_false_r.
Qed.

(** C10.  The GeoJSON branch does not consult the excluded columns: every
    key of the decorated feature other than [geom], whether excluded or not,
    and [viewerUrl] among them, is a string-valued key of [properties]; and a
    column named [GmlID] replaces the [Point.<id>] identity. *)
Theorem geojson_ignores_excluded_columns (EXCLUDED_WFS_COLUMNS : gset string)
    serverUrl srsName r :
  let decorated := Part000.mapFeature serverUrl r in
  let feature := Part000.geojsonFeature srsName decorated in
  (∀ k, k ∈ keys decorated → k ≠ "geom" →
        obj_get (properties feature) k = Some (js_to_string (prop decorated k)))
  ∧ (∀ k, k ∈ EXCLUDED_WFS_COLUMNS → k ∈ keys r → k ≠ "geom" →
          obj_get (properties feature) k = Some (js_to_string (prop r k)))
  ∧ obj_get (properties feature) "viewerUrl"
    = Some (js_to_string (prop decorated "viewerUrl"))
  ∧ ("GmlID" ∈ keys r →
     obj_get (properties feature) "GmlID" = Some (js_to_string (prop r "GmlID"))).
Proof.
  cbv zeta.
  assert (∀ k, k ∈ keys (Part000.mapFeature serverUrl r) → k ≠ "geom" →
    obj_get (properties (Part000.geojsonFeature srsName
                           (Part000.mapFeature serverUrl r))) k
    = Some (js_to_string (prop (Part000.mapFeature serverUrl r) k))) as Hall.
  { intros k Hin Hgeom. rewrite geojson_properties_get.
    rewrite bool_decide_eq_true_2 by done.
    by destruct (String.eqb_spec k "geom"). }
  split_and!.
  - done.
  - intros k _ Hin Hgeom. rewrite Hall; [|apply mapFeature_keys; by right|done].
    unfold prop. by rewrite mapFeature_get.
  - apply Hall; [apply mapFeature_keys; by left | done].
  - intros Hin. rewrite Hall; [|apply mapFeature_keys; by right|done].
    unfold prop. by rewrite mapFeature_get.
Qed.

End GeoJsonFacts.

(** ** The GML branch, one feature *)

Section GmlFacts.
Context `{JsNumber}.
Variable EXCLUDED_WFS_COLUMNS : gset string.
Implicit Types (feature r : row) (k key tag : string) (srsName : option string)
  (element : obj xobj).

Lemma obj_get_singleton {A} k (v : A) : obj_get [(k, v)] k = Some v.
Proof. cbn [obj_get]. by rewrite String.eqb_refl. Qed.

Lemma obj_set_singleton {A} k (v w : A) : obj_set [(k, v)] k w = [(k, w)].
Proof. cbn [obj_set]. by rewrite String.eqb_refl. Qed.

Lemma feature_element_wrap tag element :
  feature_element (wrap_member tag element) tag = XObj element.
Proof.
  unfold feature_element, wrap_member, xget. cbn [xfields].
  rewrite obj_get_singleton. cbn [default from_option id xfields].
  by rewrite obj_get_set_eq.
Qed.

Lemma member_set_wrap tag element key v :
  member_set (wrap_member tag element) tag key v
  = wrap_member tag (obj_set element key v).
Proof.
  unfold member_set, wrap_member, xget, xset. cbn [xfields].
  rewrite obj_get_singleton. cbn [default from_option id xfields].
  rewrite obj_get_set_eq. cbn [default from_option id xfields].
  by rewrite obj_set_singleton, obj_set_set.
Qed.

Lemma gmlColumn_wrap srsName feature element key :
  Part000.gmlColumn EXCLUDED_WFS_COLUMNS srsName feature
    (wrap_member (js_to_string (prop feature "featureset")) element) key
  = element' ← gmlElementColumn EXCLUDED_WFS_COLUMNS srsName feature element key;
    Ok (wrap_member (js_to_string (prop feature "featureset")) element').
Proof.
  unfold Part000.gmlColumn, gmlElementColumn, gmlChild, gmlGeometry.
  case_bool_decide; [done|].
  destruct (String.eqb key "geom"); [|by rewrite member_set_wrap].
  repeat case_bool_decide; by rewrite ?member_set_wrap.
Qed.

Lemma for_of_gmlColumn_wrap srsName feature ks element :
  for_of (Part000.gmlColumn EXCLUDED_WFS_COLUMNS srsName feature) ks
    (wrap_member (js_to_string (prop feature "featureset")) element)
  = element' ← for_of (gmlElementColumn EXCLUDED_WFS_COLUMNS srsName feature) ks element;
    Ok (wrap_member (js_to_string (prop feature "featureset")) element').
Proof.
  revert element. induction ks as [|a ks IH]; intros element; [done|].
  cbn [for_of]. rewrite gmlColumn_wrap.
  destruct (gmlElementColumn EXCLUDED_WFS_COLUMNS srsName feature element a) as [e'|m]; [|done].
  apply IH.
Qed.

(** [gmlFeature] is the wrapper around the element the column loop builds
    from [{ '@gml:id': `Point.${feature.id}` }]. *)
Lemma gmlFeature_wrap srsName feature :
  Part000.gmlFeature EXCLUDED_WFS_COLUMNS srsName feature
  = element ← for_of (gmlElementColumn EXCLUDED_WFS_COLUMNS srsName feature) (keys feature)
                [("@gml:id", xstr ("Point." +:+ js_to_string (prop feature "id")))];
    Ok (wrap_member (js_to_string (prop feature "featureset")) element).
Proof.
  unfold Part000.gmlFeature. rewrite <-for_of_gmlColumn_wrap. f_equal.
Qed.

Lemma gmlElementColumn_excluded srsName feature element key :
  key ∈ EXCLUDED_WFS_COLUMNS →
  gmlElementColumn EXCLUDED_WFS_COLUMNS srsName feature element key = Ok element.
Proof. intros. unfold gmlElementColumn. by rewrite bool_decide_eq_true_2. Qed.

Lemma gmlElementColumn_child srsName feature element key :
  key ∉ EXCLUDED_WFS_COLUMNS →
  gmlElementColumn EXCLUDED_WFS_COLUMNS srsName feature element key
  = v ← gmlChild srsName feature key; Ok (obj_set element key v).
Proof. intros. unfold gmlElementColumn. by rewrite bool_decide_eq_false_2. Qed.

(** The loop throws at a [geom] column that is not excluded when the
    branch on [srsName] does. *)
Lemma for_of_element_throw srsName feature ks element m :
  "geom" ∈ ks → "geom" ∉ EXCLUDED_WFS_COLUMNS →
  gmlGeometry srsName feature = Throw m →
  for_of (gmlElementColumn EXCLUDED_WFS_COLUMNS srsName feature) ks element = Throw m.
Proof.
  intros Hin Hex Hthrow. revert element.
  induction ks as [|a ks IH]; intros element; [by apply elem_of_nil in Hin|].
  cbn [for_of]. destruct (decide (a = "geom")) as [->|Hne].
  - rewrite gmlElementColumn_child by done. unfold gmlChild.
    by rewrite String.eqb_refl, Hthrow.
  - apply elem_of_cons in Hin as [Heq|Hin]; [congruence|].
    destruct (decide (a ∈ EXCLUDED_WFS_COLUMNS)).
    + rewrite gmlElementColumn_excluded by done. by apply IH.
    + rewrite gmlElementColumn_child by done. unfold gmlChild.
      destruct (String.eqb_spec a "geom"); [done|]. by apply IH.
Qed.

(** Otherwise it is a plain loop of assignments. *)
Lemma for_of_element_ok srsName feature ks element :
  ("geom" ∈ ks → "geom" ∉ EXCLUDED_WFS_COLUMNS →
   ∃ v, gmlGeometry srsName feature = Ok v) →
  for_of (gmlElementColumn EXCLUDED_WFS_COLUMNS srsName feature) ks element
  = Ok (fold_left
          (λ o key, if bool_decide (key ∈ EXCLUDED_WFS_COLUMNS) then o
                    else obj_set o key (child_or_undefined (gmlChild srsName feature key)))
          ks element).
Proof.
  revert element. induction ks as [|a ks IH]; intros element Hgeom; [done|].
  cbn [for_of fold_left]. case_bool_decide as Hex.
  - rewrite gmlElementColumn_excluded by done.
    apply IH. intros Hin. apply Hgeom. by apply list_elem_of_further.
  - rewrite gmlElementColumn_child by done.
    assert (∃ v, gmlChild srsName feature a = Ok v) as [v Hv].
    { unfold gmlChild. destruct (String.eqb_spec a "geom") as [->|Hne].
      - apply Hgeom; [apply list_elem_of_here | done].
      - eauto. }
    rewrite Hv. apply IH. intros Hin. apply Hgeom.
    by apply list_elem_of_further.
Qed.

Lemma gmlGeometry_throw srsName feature m :
  gmlGeometry srsName feature = Throw m →
  m = "unsupported SRS"
  ∧ (srsName ≠ Some "EPSG:3857") ∧ (srsName ≠ Some "EPSG:4326").
Proof. unfold gmlGeometry. repeat case_bool_decide; naive_solver. Qed.

(** The outcome of the column loop, in full. *)
Lemma for_of_element_cases srsName feature ks element :
  ("geom" ∈ ks ∧ ("geom" ∉ EXCLUDED_WFS_COLUMNS)
   ∧ (srsName ≠ Some "EPSG:3857") ∧ (srsName ≠ Some "EPSG:4326")
   ∧ for_of (gmlElementColumn EXCLUDED_WFS_COLUMNS srsName feature) ks element = Throw "unsupported SRS")
  ∨ for_of (gmlElementColumn EXCLUDED_WFS_COLUMNS srsName feature) ks element
    = Ok (fold_left
            (λ o key, if bool_decide (key ∈ EXCLUDED_WFS_COLUMNS) then o
                      else obj_set o key (child_or_undefined (gmlChild srsName feature key)))
            ks element).
Proof.
  destruct (decide ("geom" ∈ ks)) as [Hin|Hnin];
    [|right; apply for_of_element_ok; by intros ?].
  destruct (decide ("geom" ∈ EXCLUDED_WFS_COLUMNS)) as [Hex|Hex];
    [right; apply for_of_element_ok; by intros ??|].
  destruct (gmlGeometry srsName feature) as [v|m] eqn:Hg.
  - right. apply for_of_element_ok. eauto.
  - left. destruct (gmlGeometry_throw _ _ _ Hg) as (-> & ? & ?).
    split_and!; try done. by apply for_of_element_throw.
Qed.

(** The children of the feature element after a loop that did not throw. *)
Lemma gmlFeature_element_get srsName feature xml k :
  Part000.gmlFeature EXCLUDED_WFS_COLUMNS srsName feature = Ok xml →
  ∃ element,
    xml = wrap_member (js_to_string (prop feature "featureset")) element
    ∧ obj_get element k
      = if bool_decide (k ∈ keys feature) && negb (bool_decide (k ∈ EXCLUDED_WFS_COLUMNS))
        then Some (child_or_undefined (gmlChild srsName feature k))
        else if String.eqb "@gml:id" k
             then Some (xstr ("Point." +:+ js_to_string (prop feature "id")))
             else None.
Proof.
  rewrite gmlFeature_wrap.
  destruct (for_of_element_cases srsName feature (keys feature)
    [("@gml:id", xstr ("Point." +:+ js_to_string (prop feature "id")))])
    as [(_ & _ & _ & _ & ->)| ->]; [done|].
  intros [= <-]. eexists; split; [done|].
  by rewrite (loop_get (λ key, bool_decide (key ∈ EXCLUDED_WFS_COLUMNS))
                (λ key, child_or_undefined (gmlChild srsName feature key))).
Qed.

End GmlFacts.

(** ** Parameter slots *)

Section Slots.
Context `{JsNumber} {B : Type}.
Variable g : nat → string.
Variable w : B → value.
Hypothesis g_inj : Inj (=) (=) g.

Lemma slots_cons n b l : slots g w n (b :: l) = (g n, w b) :: slots g w (S n) l.
Proof.
  unfold slots. rewrite imap_cons, Nat.add_0_r. f_equal.
  apply imap_ext. intros i x _. simpl. by rewrite Nat.add_succ_r.
Qed.


Lemma obj_get_slots n l j : obj_get (slots g w n l) (g (n + j)) = w <$> l !! j.
Proof.
  revert n j. induction l as [|b l IH]; intros n j; [done|].
  rewrite slots_cons. cbn [obj_get]. destruct j as [|j].
  - by rewrite Nat.add_0_r, String.eqb_refl.
  - destruct (String.eqb_spec (g n) (g (n + S j))) as [Heq%g_inj|_]; [lia|].
    rewrite Nat.add_succ_r. apply (IH (S n) j).
Qed.

Lemma obj_get_slots_other n l k : (∀ i, k ≠ g i) → obj_get (slots g w n l) k = None.
Proof.
  intros Hk. revert n. induction l as [|b l IH]; intros n; [done|].
  rewrite slots_cons. cbn [obj_get].
  destruct (String.eqb_spec (g n) k) as [Heq|_]; [by destruct (Hk n)|]. apply IH.
Qed.

Lemma keys_slots n l : keys (slots g w n l) = imap (λ i _, g (n + i)) l.
Proof. unfold keys, slots. rewrite fmap_imap. by apply imap_ext. Qed.

Lemma elem_of_keys_slots n l k :
  k ∈ keys (slots g w n l) → ∃ i, k = g i ∧ (n ≤ i)%nat.
Proof.
  rewrite keys_slots. intros (i & y & -> & _)%elem_of_lookup_imap_1.
  exists (n + i). split; [done | lia].
Qed.

Lemma NoDup_keys_slots n l : NoDup (keys (slots g w n l)).
Proof.
  revert n. induction l as [|b l IH]; intros n; [apply NoDup_nil_2|].
  rewrite slots_cons. unfold keys. csimpl. apply NoDup_cons. split; [|apply IH].
  intros (i & Heq%g_inj & ?)%elem_of_keys_slots. lia.
Qed.

(** Assigning the slots one after the other appends them. *)
Lemma fold_slots n l (qp : obj value) :
  (∀ j, (n ≤ j)%nat → g j ∉ keys qp) →
  fold_left (λ qp (ib : nat * B), obj_set qp (g ib.1) (w ib.2))
    (imap (λ i b, (n + i, b)) l) qp
  = (qp ++ slots g w n l)%list.
Proof.
  revert n qp. induction l as [|b l IH]; intros n qp Hfresh.
  - by rewrite app_nil_r.
  - rewrite slots_cons, imap_cons. cbn [fold_left fst snd].
    rewrite Nat.add_0_r, obj_set_fresh by (by apply Hfresh).
    rewrite (imap_ext _ (λ i b, (S n + i, b))), IH.
    + by rewrite <-app_assoc.
    + intros j Hj. rewrite keys_app, elem_of_app. intros [Hin|Hin].
      * apply (Hfresh j); [lia | done].
      * apply list_elem_of_singleton in Hin. apply g_inj in Hin. lia.
    + intros i x _. simpl. by rewrite Nat.add_succ_r.
Qed.

(** A test over the slot names is a test over the bound values. *)
Lemma existsb_slots (P : string → bool) (Q : B → bool) n l :
  (∀ i b, l !! i = Some b → P (g (n + i)) = Q b) →
  existsb P (imap (λ i _, g (n + i)) l) = existsb Q l.
Proof.
  revert n. induction l as [|b l IH]; intros n HPQ; [done|].
  assert (P (g n) = Q b) as Hb.
  { rewrite <-(Nat.add_0_r n). by apply HPQ. }
  rewrite imap_cons. cbn [existsb]. rewrite Nat.add_0_r, Hb.
  f_equal. rewrite (imap_ext _ (λ i _, g (S n + i))).
  - apply IH. intros i x Hi. rewrite <-(HPQ (S i) x) by done.
    by rewrite Nat.add_succ_r.
  - intros i x _. simpl. by rewrite Nat.add_succ_r.
Qed.

End Slots.

(** ** The parameter mapping of the queries *)

Section QueryParamFacts.
Context `{JsNumber}.
Implicit Types (p : Parsed) (typeNames : list string) (bbox : list num).

#[local] Instance param_slot_inj : Inj (=) (=) param_slot.
Proof. intros m n Heq. by apply (inj (String.app "$param")), (inj pretty) in Heq. Qed.

#[local] Instance bbox_slot_inj : Inj (=) (=) bbox_slot.
Proof. intros m n Heq. by apply (inj (String.app "$bbox")), (inj pretty) in Heq. Qed.

Lemma param_slot_not_bbox i j : param_slot i ≠ bbox_slot j.
Proof. unfold param_slot, bbox_slot, String.app. cbn [String.append]. congruence. Qed.

Lemma param_slot_not_count i : param_slot i ≠ "$count".
Proof. unfold param_slot, String.app. cbn [String.append]. congruence. Qed.

Lemma bbox_slot_not_count i : bbox_slot i ≠ "$count".
Proof. unfold bbox_slot, String.app. cbn [String.append]. congruence. Qed.

Lemma bindTypeNames_fold typeNames (qp : obj value) n :
  fold_left
    (λ '(qp, n) typeName, (obj_set qp (param_slot n) (VStr typeName), S n))
    typeNames (qp, n)
  = (fold_left (λ qp (ib : nat * string), obj_set qp (param_slot ib.1) (VStr ib.2))
       (imap (λ i t, (n + i, t)) typeNames) qp,
     n + length typeNames).
Proof.
  revert qp n. induction typeNames as [|t ts IH]; intros qp n.
  - by rewrite Nat.add_0_r.
  - rewrite imap_cons. cbn [fold_left fst snd length]. rewrite IH, Nat.add_0_r.
    rewrite (imap_ext ((λ i (t : string), (n + i, t)) ∘ S) (λ i t, (S n + i, t)));
      [by rewrite Nat.add_succ_r|].
    intros i x _. simpl. by rewrite Nat.add_succ_r.
Qed.

Lemma bindTypeNames_eq typeNames :
  bindTypeNames typeNames [] = (typeSlots typeNames, length typeNames).
Proof.
  unfold bindTypeNames. rewrite bindTypeNames_fold.
  rewrite (fold_slots param_slot VStr _ 0); [done|].
  intros j _. apply not_elem_of_nil.
Qed.

Lemma bindBbox_eq bbox (qp : obj value) :
  (∀ j, bbox_slot j ∉ keys qp) → bindBbox bbox qp = (qp ++ bboxSlots bbox)%list.
Proof.
  intros Hfresh. unfold bindBbox.
  rewrite (fold_slots bbox_slot VNum _ 0); [done|]. intros j _. apply Hfresh.
Qed.

Lemma bbox_slot_not_typeSlots typeNames j : bbox_slot j ∉ keys (typeSlots typeNames).
Proof.
  intros (i & Heq & _)%elem_of_keys_slots. by destruct (param_slot_not_bbox i j).
Qed.

Lemma count_not_typeSlots typeNames : "$count" ∉ keys (typeSlots typeNames).
Proof.
  intros (i & Heq & _)%elem_of_keys_slots. by destruct (param_slot_not_count i).
Qed.

Lemma count_not_bboxSlots bbox : "$count" ∉ keys (bboxSlots bbox).
Proof.
  intros (i & Heq & _)%elem_of_keys_slots. by destruct (bbox_slot_not_count i).
Qed.

(** [queryParams] before the fetch query, entry by entry. *)
Lemma buildQueryParams_eq p :
  Part000.buildQueryParams p
  = (typeSlots (typeNames p) ++ from_option bboxSlots [] (bbox p)
     ++ countSlot (count p))%list.
Proof.
  unfold Part000.buildQueryParams. rewrite bindTypeNames_eq. cbn [fst].
  assert (∀ qp : obj value, "$count" ∉ keys qp →
    match count p with
    | Some c => obj_set qp "$count" (VNum c)
    | None => qp
    end = (qp ++ countSlot (count p))%list) as Hcount.
  { intros qp Hfresh. destruct (count p); simpl.
    - by apply obj_set_fresh.
    - by rewrite app_nil_r. }
  destruct (bbox p) as [b|]; cbn [from_option].
  - rewrite bindBbox_eq by apply bbox_slot_not_typeSlots.
    rewrite Hcount, <-app_assoc; [done|].
    rewrite keys_app, elem_of_app.
    intros [Hin|Hin]; [by apply count_not_typeSlots in Hin
                      | by apply count_not_bboxSlots in Hin].
  - rewrite Hcount; [done | apply count_not_typeSlots].
Qed.

End QueryParamFacts.

(** ** What the queries select *)

Section FetchFacts.
Context `{JsNumber}.
Implicit Types (p : Parsed) (ds : DataSource) (r : row) (log : list Event).

Lemma queryParams_param p i :
  obj_get (Part000.buildQueryParams p) (param_slot i) = VStr <$> typeNames p !! i.
Proof.
  rewrite buildQueryParams_eq, obj_get_app.
  unfold typeSlots. rewrite (obj_get_slots param_slot VStr _ 0 _ i).
  destruct (typeNames p !! i) as [t|]; [done|]. cbn [fmap option_fmap option_map].
  rewrite obj_get_app.
  assert (obj_get (from_option bboxSlots [] (bbox p)) (param_slot i) = None) as ->.
  { destruct (bbox p) as [b|]; [|done]. apply (obj_get_slots_other bbox_slot VNum).
    intros j. apply param_slot_not_bbox. }
  destruct (count p) as [c|]; [|done]. cbn [countSlot from_option obj_get].
  destruct (String.eqb_spec "$count" (param_slot i)) as [Heq|]; [|done].
  by destruct (param_slot_not_count i).
Qed.

Lemma queryParams_bbox p i :
  obj_get (Part000.buildQueryParams p) (bbox_slot i)
  = b ← bbox p; VNum <$> b !! i.
Proof.
  rewrite buildQueryParams_eq, obj_get_app. unfold typeSlots.
  rewrite (obj_get_slots_other param_slot VStr)
    by (intros j Heq; by destruct (param_slot_not_bbox j i)).
  rewrite obj_get_app.
  assert (obj_get (countSlot (count p)) (bbox_slot i) = None) as Hc.
  { destruct (count p) as [c|]; [|done]. cbn [countSlot from_option obj_get].
    destruct (String.eqb_spec "$count" (bbox_slot i)) as [Heq|]; [|done].
    by destruct (bbox_slot_not_count i). }
  destruct (bbox p) as [b|]; cbn [from_option mbind option_bind]; [|done].
  unfold bboxSlots. rewrite (obj_get_slots bbox_slot VNum _ 0 _ i).
  by destruct (b !! i).
Qed.

Lemma queryParams_count p :
  obj_get (Part000.buildQueryParams p) "$count" = VNum <$> count p.
Proof.
  rewrite buildQueryParams_eq, !obj_get_app.
  rewrite (proj2 (obj_get_None _ _) (count_not_typeSlots _)).
  assert (obj_get (from_option bboxSlots [] (bbox p)) "$count" = None) as ->.
  { destruct (bbox p) as [b|]; [|done]. apply obj_get_None, count_not_bboxSlots. }
  by destruct (count p).
Qed.

Lemma NoDup_keys_queryParams p : NoDup (keys (Part000.buildQueryParams p)).
Proof.
  rewrite buildQueryParams_eq, !keys_app. apply NoDup_app. split_and!.
  - apply (NoDup_keys_slots param_slot VStr _).
  - intros k (i & -> & _)%elem_of_keys_slots. rewrite elem_of_app. intros [Hin|Hin].
    + destruct (bbox p) as [b|]; [|by apply elem_of_nil in Hin].
      apply elem_of_keys_slots in Hin as (j & Heq & _).
      by destruct (param_slot_not_bbox i j).
    + destruct (count p) as [c|]; [|by apply elem_of_nil in Hin].
      apply list_elem_of_singleton in Hin. by destruct (param_slot_not_count i).
  - apply NoDup_app. split_and!.
    + destruct (bbox p) as [b|]; [|apply NoDup_nil_2].
      apply (NoDup_keys_slots bbox_slot VNum _).
    + intros k Hk Hin. destruct (count p) as [c|]; [|by apply elem_of_nil in Hin].
      apply list_elem_of_singleton in Hin as ->.
      destruct (bbox p) as [b|]; [|by apply elem_of_nil in Hk].
      by apply count_not_bboxSlots in Hk.
    + destruct (count p) as [c|]; [apply NoDup_singleton | apply NoDup_nil_2].
Qed.

Lemma obj_remove_fresh {A} (o : obj A) k : k ∉ keys o → obj_remove o k = o.
Proof.
  unfold obj_remove, keys. induction o as [|[k' v] o IH]; [done|]. csimpl.
  rewrite not_elem_of_cons. intros [Hne Hnin].
  destruct (String.eqb_spec k' k); [congruence|]. simpl. by rewrite IH.
Qed.

Lemma obj_remove_app {A} (o1 o2 : obj A) k :
  obj_remove (o1 ++ o2)%list k = (obj_remove o1 k ++ obj_remove o2 k)%list.
Proof. unfold obj_remove. apply List.filter_app. Qed.

(** [remainingQueryParams], entry by entry. *)
Lemma remainingQueryParams_eq p :
  obj_remove (Part000.buildQueryParams p) "$count"
  = (typeSlots (typeNames p) ++ from_option bboxSlots [] (bbox p))%list.
Proof.
  rewrite buildQueryParams_eq, app_assoc, obj_remove_app.
  assert (obj_remove (countSlot (count p)) "$count" = []) as ->.
  { by destruct (count p). }
  rewrite app_nil_r. apply obj_remove_fresh.
  rewrite keys_app, elem_of_app. intros [Hin|Hin].
  - by apply count_not_typeSlots in Hin.
  - destruct (bbox p) as [b|]; [|by apply elem_of_nil in Hin].
    by apply count_not_bboxSlots in Hin.
Qed.

End FetchFacts.

(** ** Running the queries *)

Section FetchRun.
Context `{JsNumber}.
Implicit Types (p : Parsed) (ds : DataSource) (r : row) (log : list Event)
  (q : Sql) (params : obj value).

Lemma io_bind_run {A B} (m : IO A) (f : A → IO B) log :
  (m ≫= f) log
  = match m log with
    | (Ok a, log') => f a log'
    | (Throw e, log') => (Throw e, log')
    end.
Proof. done. Qed.

Lemma emit_bind_run {B} (e : Event) (f : unit → IO B) log :
  (emit e ≫= f) log = f () (log ++ [e])%list.
Proof. done. Qed.

Lemma emit_run (e : Event) log : emit e log = (Ok (), (log ++ [e])%list).
Proof. done. Qed.

Lemma queryFeaturePackage_run ds q params log :
  NoDup (keys params) →
  queryFeaturePackage ds q params log
  = (run_query ds q params, (log ++ [Query q params])%list).
Proof. intros Hnd. unfold queryFeaturePackage. by rewrite spread_nil. Qed.

Lemma where_clause_filter q params p r :
  in_list q = featureSets (typeNames p) →
  bbox_clause q = bool_decide (bbox p ≠ None) →
  (∀ i, obj_get params (param_slot i) = VStr <$> typeNames p !! i) →
  (∀ i, obj_get params (bbox_slot i) = b ← bbox p; VNum <$> b !! i) →
  where_clause q params r = matchesFilter p r.
Proof.
  intros Hin Hbb Hparam Hbbox. unfold where_clause, matchesFilter.
  rewrite Hin, Hbb. f_equal.
  - apply (existsb_slots param_slot
             (λ s, sql_eq (prop r "featureset") (prop params s))
             (λ t, sql_eq (prop r "featureset") (VStr t)) 0).
    intros i t Hi. change (0 + i) with i. unfold prop. by rewrite Hparam, Hi.
  - destruct (bbox p) as [b|] eqn:Hb; [|done].
    assert (∀ i, prop params (bbox_slot i) = bbox_component b i) as Hc.
    { intros i. unfold prop, bbox_component. rewrite Hbbox. simpl.
      by destruct (b !! i). }
    rewrite bool_decide_eq_true_2 by done.
    by rewrite <-(Hc 0), <-(Hc 1), <-(Hc 2), <-(Hc 3).
Qed.

Lemma where_clause_fetch p r :
  where_clause (Part000.fetchSql p) (Part000.buildQueryParams p) r
  = matchesFilter p r.
Proof.
  apply where_clause_filter; try done.
  - apply queryParams_param.
  - apply queryParams_bbox.
Qed.

Lemma where_clause_total p r :
  where_clause (Part000.totalCountSql p)
    (obj_remove (Part000.buildQueryParams p) "$count") r
  = matchesFilter p r.
Proof.
  apply where_clause_filter; try done.
  - intros i. rewrite obj_get_remove.
    destruct (String.eqb_spec "$count" (param_slot i)) as [Heq|_].
    + by destruct (param_slot_not_count i).
    + apply queryParams_param.
  - intros i. rewrite obj_get_remove.
    destruct (String.eqb_spec "$count" (bbox_slot i)) as [Heq|_].
    + by destruct (bbox_slot_not_count i).
    + apply queryParams_bbox.
Qed.

Lemma bindings_match_keys q params :
  keys params = referenced q → bindings_match q params = true.
Proof.
  intros Hkeys. unfold bindings_match. rewrite Hkeys.
  assert (forallb (λ k, bool_decide (k ∈ referenced q)) (referenced q) = true) as ->;
    [|done].
  apply forallb_forall. intros k Hk. by apply bool_decide_eq_true_2, list_elem_of_In.
Qed.

Lemma keys_bboxSlots_wf (b : list num) :
  length b = 4 → keys (bboxSlots b) = ["$bbox0"; "$bbox1"; "$bbox2"; "$bbox3"].
Proof. by destruct b as [|b0 [|b1 [|b2 [|b3 [|b4 b]]]]]. Qed.

Lemma keys_typeSlots (typeNames : list string) :
  keys (typeSlots typeNames) = featureSets typeNames.
Proof. unfold typeSlots. by rewrite keys_slots. Qed.

Lemma keys_queryParams p :
  bbox_wf p → keys (Part000.buildQueryParams p) = referenced (Part000.fetchSql p).
Proof.
  intros Hwf. rewrite buildQueryParams_eq, !keys_app, keys_typeSlots.
  unfold referenced, Part000.fetchSql. cbn [in_list bbox_clause limit_clause].
  f_equal. f_equal.
  - destruct (bbox p) as [b|] eqn:Hb; [|done].
    rewrite bool_decide_eq_true_2 by done. by apply keys_bboxSlots_wf, Hwf.
  - by destruct (count p).
Qed.

Lemma keys_remainingQueryParams p :
  bbox_wf p →
  keys (obj_remove (Part000.buildQueryParams p) "$count")
  = referenced (Part000.totalCountSql p).
Proof.
  intros Hwf. rewrite remainingQueryParams_eq, !keys_app, keys_typeSlots.
  unfold referenced, Part000.totalCountSql. cbn [in_list bbox_clause limit_clause].
  rewrite app_nil_r. f_equal.
  destruct (bbox p) as [b|] eqn:Hb; [|done].
  rewrite bool_decide_eq_true_2 by done. by apply keys_bboxSlots_wf, Hwf.
Qed.

Lemma NoDup_keys_remainingQueryParams p :
  NoDup (keys (obj_remove (Part000.buildQueryParams p) "$count")).
Proof.
  pose proof (NoDup_keys_queryParams p) as Hnd.
  rewrite buildQueryParams_eq, app_assoc, keys_app in Hnd.
  apply NoDup_app in Hnd as (Hnd & _ & _).
  by rewrite remainingQueryParams_eq.
Qed.

Lemma run_query_fetch ds p :
  bbox_wf p →
  run_query ds (Part000.fetchSql p) (Part000.buildQueryParams p) = Ok (fetched ds p).
Proof.
  intros Hwf. unfold run_query.
  rewrite bindings_match_keys by by apply keys_queryParams.
  rewrite andb_false_r. cbn [projection Part000.fetchSql limit_clause].
  rewrite (List.filter_ext _ (matchesFilter p)) by apply where_clause_fetch.
  unfold fetched, prop. rewrite queryParams_count.
  by destruct (count p).
Qed.

Lemma run_query_total ds p :
  bbox_wf p →
  run_query ds (Part000.totalCountSql p)
    (obj_remove (Part000.buildQueryParams p) "$count")
  = Ok [[("totalCount", VNum (num_of_nat (trueMatchCount ds p)))]].
Proof.
  intros Hwf. unfold run_query.
  rewrite bindings_match_keys by by apply keys_remainingQueryParams.
  rewrite andb_false_r. cbn [projection Part000.totalCountSql].
  by rewrite (List.filter_ext _ (matchesFilter p)) by apply where_clause_total.
Qed.

(** The fetch phase on a well-formed filter. *)
Lemma fetchFeatures_run ds p log :
  bbox_wf p →
  Part000.fetchFeatures ds p log
  = (Ok (fetched ds p, numberMatched ds p), (log ++ queries p)%list).
Proof.
  intros Hwf. unfold Part000.fetchFeatures. rewrite io_bind_run.
  rewrite queryFeaturePackage_run by apply NoDup_keys_queryParams.
  rewrite run_query_fetch by done. unfold numberMatched, queries.
  destruct (count p) as [c|] eqn:Hc; [|done].
  rewrite io_bind_run.
  rewrite queryFeaturePackage_run by apply NoDup_keys_remainingQueryParams.
  rewrite run_query_total by done. cbn. by rewrite <-app_assoc.
Qed.

End FetchRun.

(** ** The count policy and the parameter mappings *)

Section CountFacts.
Context `{JsNumber}.
Implicit Types (p : Parsed) (ds : DataSource) (log : list Event).

Lemma length_fetched_limit ds p k :
  count p = Some (num_of_nat k) → k < trueMatchCount ds p →
  length (fetched ds p) = k.
Proof.
  intros Hc Hk. unfold fetched, sql_limit. rewrite Hc, num_limit_of_nat.
  cbn [from_option]. rewrite length_take. unfold trueMatchCount in Hk. lia.
Qed.

(** The calls of the fetch phase, whatever the store answers: the fetch
    query, then the total-count query unless the first one failed or no
    limit was given. *)
Lemma fetchFeatures_calls ds p log :
  ∃ calls, (Part000.fetchFeatures ds p log).2 = (log ++ calls)%list
    ∧ (calls = queries p
       ∨ calls = [Query (Part000.fetchSql p) (Part000.buildQueryParams p)]).
Proof.
  unfold Part000.fetchFeatures. rewrite io_bind_run.
  rewrite queryFeaturePackage_run by apply NoDup_keys_queryParams.
  destruct (run_query ds (Part000.fetchSql p) (Part000.buildQueryParams p))
    as [rows|e]; [|by eauto].
  unfold queries. destruct (count p) as [c|]; [|by eauto].
  rewrite io_bind_run.
  rewrite queryFeaturePackage_run by apply NoDup_keys_remainingQueryParams.
  eexists. split; [|by left].
  destruct (run_query _ _ _) as [rows'|e]; [|by rewrite <-app_assoc].
  rewrite io_bind_run. unfold lift.
  destruct (first_column rows' "totalCount"); by rewrite <-app_assoc.
Qed.

End CountFacts.

(** ** The handler *)

Section HandlerFacts.
Context `{JsNumber}.
Variable EXCLUDED_WFS_COLUMNS : gset string.
Implicit Types (p : Parsed) (ds : DataSource) (r feature : row)
  (serverUrl k : string) (srsName : option string).




(** One request on a well-formed filter, from the refresh to the response
    or to the exception. *)
Lemma wfsGetFeature_run ds serverUrl p :
  bbox_wf p →
  Part000.wfsGetFeature EXCLUDED_WFS_COLUMNS ds serverUrl (Some p) []
  = let decorated := map (Part000.mapFeature serverUrl) (fetched ds p) in
    let log := Refresh false :: queries p in
    if String.eqb (outputFormat p) "GEOJSON" then
      (Ok (),
       (log ++ [ResSet "Content-Type" "application/json"; ResStatus 200;
                ResSend (JsonText
                  {| collection_type := "FeatureCollection";
                     features := map (Part000.geojsonFeature (srsName p)) decorated |})])%list)
    else
      match map_throwing (Part000.gmlFeature EXCLUDED_WFS_COLUMNS (srsName p)) decorated with
      | Ok members =>
          (Ok (),
           (log ++ [ResSet "Content-Type" "text/xml"; ResStatus 200;
                    ResSend (XmlText
                      (Part000.gmlCollection (length decorated)
                         (numberMatched ds p) members))])%list)
      | Throw e => (Throw e, log)
      end.
Proof.
  intros Hwf. unfold Part000.wfsGetFeature, refresh.
  rewrite emit_bind_run, io_bind_run, fetchFeatures_run by done.
  cbv zeta. cbn [app]. destruct (String.eqb (outputFormat p) "GEOJSON").
  - rewrite !emit_bind_run, emit_run. cbn [app]. by rewrite <-!app_assoc.
  - rewrite io_bind_run. unfold lift at 1.
    destruct (map_throwing _ _) as [members|e]; [|done].
    rewrite !emit_bind_run, emit_run. cbn [app]. by rewrite <-!app_assoc.
Qed.

(** The log of one request, whatever the store answers: the refresh, the
    queries of the fetch phase, then calls on the response only. *)
Lemma wfsGetFeature_log ds serverUrl p :
  ∃ calls rest,
    (Part000.wfsGetFeature EXCLUDED_WFS_COLUMNS ds serverUrl (Some p) []).2
    = (Refresh false :: calls ++ rest)%list
    ∧ (calls = queries p
       ∨ calls = [Query (Part000.fetchSql p) (Part000.buildQueryParams p)])
    ∧ Forall (λ e, is_query e = false) rest.
Proof.
  destruct (fetchFeatures_calls ds p [Refresh false]) as (calls & Hlog & Hcalls).
  exists calls. unfold Part000.wfsGetFeature, refresh.
  rewrite emit_bind_run, io_bind_run. cbn [app].
  destruct (Part000.fetchFeatures ds p [Refresh false]) as [[[rows matched]|e] log].
  - cbn [snd] in Hlog. subst log.
    destruct (String.eqb (outputFormat p) "GEOJSON").
    + rewrite !emit_bind_run, emit_run. cbn [snd app]. eexists.
      rewrite <-!app_assoc. split; [done|]. split; [done|].
      by repeat constructor.
    + rewrite io_bind_run. unfold lift at 1.
      destruct (map_throwing _ _) as [members|e].
      * rewrite !emit_bind_run, emit_run. cbn [snd app]. eexists.
        rewrite <-!app_assoc. split; [done|]. split; [done|].
        by repeat constructor.
      * exists []. by rewrite app_nil_r.
  - cbn [snd] in Hlog. subst log. exists []. by rewrite app_nil_r.
Qed.

(** C4.  In every request the mapping handed to the total-count query,
    whenever that query is called, is the mapping of the fetch query without
    [$count] and has no [$count] key.  The mapping of the fetch query, the
    call that follows the refresh, has distinct keys and binds
    [typeNames[i]] at [$param<i>], [bbox[i]] at [$bbox<i>] and the count at
    [$count]; the slot names differ from one index to the next. *)
Theorem parameter_isolation ds serverUrl p :
  let queryParams := Part000.buildQueryParams p in
  let log := (Part000.wfsGetFeature EXCLUDED_WFS_COLUMNS ds serverUrl (Some p) []).2 in
  (∀ q params, Query q params ∈ log → projection q ≠ SelectAll →
     params = obj_remove queryParams "$count" ∧ obj_get params "$count" = None)
  ∧ log !! 1 = Some (Query (Part000.fetchSql p) queryParams)
  ∧ NoDup (keys queryParams)
  ∧ (∀ i t, typeNames p !! i = Some t →
            obj_get queryParams (param_slot i) = Some (VStr t))
  ∧ (∀ b i n, bbox p = Some b → b !! i = Some n →
              obj_get queryParams (bbox_slot i) = Some (VNum n))
  ∧ (∀ c, count p = Some c → obj_get queryParams "$count" = Some (VNum c))
  ∧ Inj (=) (=) param_slot ∧ Inj (=) (=) bbox_slot.
Proof.
  cbv zeta. destruct (wfsGetFeature_log ds serverUrl p)
    as (calls & rest & -> & Hcalls & Hrest).
  split_and!.
  - intros q params Hin Hq.
    assert (Query q params ∈ queries p) as Hin'.
    { apply elem_of_cons in Hin as [?|Hin]; [done|].
      apply elem_of_app in Hin as [Hin|Hin].
      - destruct Hcalls as [->| ->]; [done|].
        apply list_elem_of_singleton in Hin. rewrite Hin. apply list_elem_of_here.
      - rewrite Forall_forall in Hrest. by apply Hrest in Hin. }
    unfold queries in Hin'. apply elem_of_cons in Hin' as [[= -> ->]|Hin']; [done|].
    destruct (count p); [|by apply elem_of_nil in Hin'].
    apply list_elem_of_singleton in Hin' as [= -> ->].
    split; [done|]. rewrite obj_get_remove. by rewrite String.eqb_refl.
  - by destruct Hcalls as [->| ->].
  - apply NoDup_keys_queryParams.
  - intros i t Hi. by rewrite queryParams_param, Hi.
  - intros b i n Hb Hi. rewrite queryParams_bbox, Hb. simpl. by rewrite Hi.
  - intros c Hc. by rewrite queryParams_count, Hc.
  - apply _.
  - apply _.
Qed.

Lemma existsb_cons {A} (f : A → bool) a l :
  existsb f (a :: l) = f a || existsb f l.
Proof. done. Qed.

Lemma total_count_in_log ds serverUrl p :
  bbox_wf p →
  existsb is_total_count
    (Part000.wfsGetFeature EXCLUDED_WFS_COLUMNS ds serverUrl (Some p) []).2
  = bool_decide (count p ≠ None).
Proof.
  intros Hwf. rewrite wfsGetFeature_run by done. cbv zeta.
  assert (existsb is_total_count (queries p) = bool_decide (count p ≠ None)) as Hq.
  { unfold queries. by destruct (count p). }
  destruct (String.eqb (outputFormat p) "GEOJSON").
  - cbn [snd]. rewrite existsb_app, existsb_cons, Hq. cbn.
    by rewrite orb_false_r.
  - destruct (map_throwing _ _) as [members|e]; cbn [snd].
    + rewrite existsb_app, existsb_cons, Hq. cbn. by rewrite orb_false_r.
    + by rewrite existsb_cons, Hq.
Qed.

(** C1.  On a filter whose bounding box, if any, is a 4-tuple: a request
    calls the total-count query exactly when a count limit was given; the
    fetch phase returns [features] and [numberMatched] such that, without a
    limit, [numberMatched] is [features.length] and the fetch query is its
    only call, and, with [count = k] below the number [M] of matching rows,
    [numberMatched] is [M] and [features.length] is [k]. *)
Theorem count_policy_and_consistency ds serverUrl p log :
  bbox_wf p →
  (existsb is_total_count
     (Part000.wfsGetFeature EXCLUDED_WFS_COLUMNS ds serverUrl (Some p) []).2 = true
   ↔ count p ≠ None)
  ∧ ∃ features numberMatched calls,
      Part000.fetchFeatures ds p log
      = (Ok (features, numberMatched), (log ++ calls)%list)
      ∧ (count p = None →
         numberMatched = VNum (num_of_nat (length features)) ∧ length calls = 1)
      ∧ (∀ n : nat, count p = Some (num_of_nat n) → n < trueMatchCount ds p →
              numberMatched = VNum (num_of_nat (trueMatchCount ds p))
              ∧ length features = n).
Proof.
  intros Hwf. split.
  - rewrite total_count_in_log by done. apply bool_decide_eq_true.
  - exists (fetched ds p), (numberMatched ds p), (queries p).
    split; [by apply fetchFeatures_run|]. unfold numberMatched, queries. split.
    + by intros ->.
    + intros k Hc Hk. split; [by rewrite Hc | by apply length_fetched_limit].
Qed.

(** C9.  A GeoJSON request on a well-formed filter is answered with status
    200 and content type [application/json] whatever [srsName] is: no call
    throws, the document holds one feature per fetched row, and the
    coordinates are the row's [x, y] as soon as [srsName] is not
    [EPSG:4326]. *)
Theorem geojson_never_unsupported_crs ds serverUrl p :
  bbox_wf p → outputFormat p = "GEOJSON" →
  ∃ doc,
    Part000.wfsGetFeature EXCLUDED_WFS_COLUMNS ds serverUrl (Some p) []
    = (Ok (),
       (Refresh false :: queries p
        ++ [ResSet "Content-Type" "application/json"; ResStatus 200;
            ResSend (JsonText doc)])%list)
    ∧ features doc
      = map (λ r, Part000.geojsonFeature (srsName p) (Part000.mapFeature serverUrl r))
          (fetched ds p)
    ∧ (srsName p ≠ Some "EPSG:4326" →
       Forall2 (λ r f, coordinates (geometry f) = [prop r "x"; prop r "y"])
         (fetched ds p) (features doc)).
Proof.
  intros Hwf Hfmt. eexists. rewrite wfsGetFeature_run by done.
  cbv zeta. rewrite Hfmt, String.eqb_refl. split_and!.
  - done.
  - cbn [features]. by rewrite map_map.
  - intros Hsrs. cbn [features]. rewrite map_map.
    induction (fetched ds p) as [|r rows IH]; [by constructor|].
    cbn [map]. constructor; [|done].
    rewrite geojson_coordinates, bool_decide_eq_false_2 by done.
    by rewrite !mapFeature_prop.
Qed.

End HandlerFacts.

(** ** The GML branch: exclusion, identity, reference systems *)

Section GmlProperties.
Context `{JsNumber}.
Variable EXCLUDED_WFS_COLUMNS : gset string.
Implicit Types (p : Parsed) (ds : DataSource) (r feature : row)
  (serverUrl k : string) (srsName : option string) (xml : xobj).

(** C7.  In the GML branch no child element of a feature element is named
    after an excluded column. *)
Theorem gml_exclusion_fidelity srsName feature xml k :
  Part000.gmlFeature EXCLUDED_WFS_COLUMNS srsName feature = Ok xml →
  k ∈ child_elements (feature_element xml (js_to_string (prop feature "featureset"))) →
  k ∉ EXCLUDED_WFS_COLUMNS.
Proof.
  intros Hxml Hk Hex.
  destruct (gmlFeature_element_get EXCLUDED_WFS_COLUMNS _ _ _ k Hxml)
    as (element & -> & Hget).
  rewrite feature_element_wrap in Hk. unfold child_elements in Hk.
  apply list_elem_of_In, filter_In in Hk as [Hin Hattr]. cbn [xfields] in Hin.
  apply list_elem_of_In, obj_get_is_Some in Hin as [v Hv].
  rewrite Hget, (bool_decide_eq_true_2 _ Hex), andb_false_r in Hv.
  destruct (String.eqb_spec "@gml:id" k) as [<-|]; [done|done].
Qed.


Lemma gmlFeature_geom srsName feature v :
  "geom" ∈ keys feature → "geom" ∉ EXCLUDED_WFS_COLUMNS →
  gmlGeometry srsName feature = Ok v →
  ∃ xml, Part000.gmlFeature EXCLUDED_WFS_COLUMNS srsName feature = Ok xml
    ∧ obj_get (xfields (feature_element xml (js_to_string (prop feature "featureset"))))
        "geom" = Some v.
Proof.
  intros Hin Hex Hg.
  destruct (Part000.gmlFeature EXCLUDED_WFS_COLUMNS srsName feature) as [xml|m] eqn:Hxml.
  - exists xml. split; [done|].
    destruct (gmlFeature_element_get EXCLUDED_WFS_COLUMNS _ _ _ "geom" Hxml)
      as (element & -> & Hget).
    rewrite feature_element_wrap. cbn [xfields]. rewrite Hget.
    rewrite !bool_decide_eq_true_2, bool_decide_eq_false_2 by done.
    unfold gmlChild. by rewrite String.eqb_refl, Hg.
  - rewrite gmlFeature_wrap in Hxml.
    destruct (for_of_element_cases EXCLUDED_WFS_COLUMNS srsName feature (keys feature)
      [("@gml:id", xstr ("Point." +:+ js_to_string (prop feature "id")))])
      as [(_ & _ & H3857 & H4326 & _)|Hok]; [|by rewrite Hok in Hxml].
    unfold gmlGeometry in Hg. by rewrite !bool_decide_eq_false_2 in Hg.
Qed.

Lemma gmlFeature_unsupported srsName feature :
  "geom" ∈ keys feature → "geom" ∉ EXCLUDED_WFS_COLUMNS →
  srsName ≠ Some "EPSG:3857" → srsName ≠ Some "EPSG:4326" →
  Part000.gmlFeature EXCLUDED_WFS_COLUMNS srsName feature = Throw "unsupported SRS".
Proof.
  intros Hin Hex H3857 H4326. rewrite gmlFeature_wrap.
  rewrite (for_of_element_throw EXCLUDED_WFS_COLUMNS _ _ _ _ "unsupported SRS");
    [done|done|done|].
  unfold gmlGeometry. by rewrite !bool_decide_eq_false_2.
Qed.


(** C6, as the handler has it.  The [GmlID] property of a GeoJSON feature is
    [Point.<id>] when the row has no column named [GmlID].  In a GML member
    the only child element is named after the row's [featureset] value, and
    its [gml:id] attribute is [Point.<id>] when the row has no column named
    [@gml:id] or that name is excluded. *)
Theorem identity_propagation serverUrl srsName r :
  let feature := Part000.mapFeature serverUrl r in
  let identity := "Point." +:+ js_to_string (prop r "id") in
  let tag := js_to_string (prop r "featureset") in
  ("GmlID" ∉ keys r →
   obj_get (properties (Part000.geojsonFeature srsName feature)) "GmlID"
   = Some identity)
  ∧ (∀ xml, Part000.gmlFeature EXCLUDED_WFS_COLUMNS srsName feature = Ok xml →
       ∃ element,
         obj_get (xfields (xget xml "wfs:member")) tag = Some (XObj element)
         ∧ (∀ k, k ∈ child_elements (xget xml "wfs:member") → k = tag)
         ∧ ("@gml:id" ∉ keys r ∨ "@gml:id" ∈ EXCLUDED_WFS_COLUMNS →
            obj_get element "@gml:id" = Some (xstr identity))).
Proof.
  cbv zeta. rewrite <-(mapFeature_prop serverUrl r "featureset") by done.
  rewrite <-(mapFeature_prop serverUrl r "id") by done. split.
  - intros Hnin. rewrite geojson_properties_get.
    rewrite bool_decide_eq_false_2; [done|].
    rewrite mapFeature_keys. by intros [?|?].
  - intros xml Hxml.
    destruct (gmlFeature_element_get EXCLUDED_WFS_COLUMNS _ _ _ "@gml:id" Hxml)
      as (element & -> & Hget).
    exists element. unfold wrap_member, xget at 1 2. cbn [xfields].
    rewrite obj_get_singleton. cbn [default from_option id xfields]. split_and!.
    + apply obj_get_set_eq.
    + intros k. unfold child_elements. cbn [xfields].
      intros [Hk Hattr]%list_elem_of_In%filter_In.
      apply list_elem_of_In, elem_of_keys_set in Hk as [->|Hk]; [done|].
      apply list_elem_of_singleton in Hk as ->. done.
    + intros Hid. rewrite Hget.
      assert (bool_decide ("@gml:id" ∈ keys (Part000.mapFeature serverUrl r))
              && negb (bool_decide ("@gml:id" ∈ EXCLUDED_WFS_COLUMNS)) = false) as ->;
        [|done].
      destruct Hid as [Hnin|Hex].
      * rewrite bool_decide_eq_false_2; [done|].
        rewrite mapFeature_keys. by intros [?|?].
      * by rewrite (bool_decide_eq_true_2 _ Hex), andb_false_r.
Qed.

End GmlProperties.

Lemma request_bbox_wf format limit srs : bbox_wf (Examples.request format limit srs).
Proof. intros b [= <-]. reflexivity. Defined.

(** C1 at a limit of 2 on three matching parks: two features,
    [numberMatched] 3. *)
Lemma count_policy_and_consistency_witness :
  bbox_wf (Examples.request "GML" (Some 2%Z) None)
  ∧ ∃ features calls,
      Part000.fetchFeatures Examples.store (Examples.request "GML" (Some 2%Z) None) []
      = (Ok (features, VNum 3%Z), calls)
      ∧ length features = 2.
Proof.
  split; [apply request_bbox_wf|].
  destruct (count_policy_and_consistency Examples.excluded Examples.store
              "http://host" (Examples.request "GML" (Some 2%Z) None) []
              (request_bbox_wf _ _ _))
    as (_ & features & matched & calls & Hrun & _ & Hlimit).
  destruct (Hlimit 2) as [-> Hlen]; [reflexivity | vm_compute; lia |].
  by exists features, calls.
Defined.



(** C6 fails on a row with a column named [GmlID]: the property reads the
    column, not [Point.7]. *)
Lemma gmlid_column_replaces_identity :
  obj_get
    (properties (Part000.geojsonFeature None
                   (Part000.mapFeature "http://host" Examples.tagged))) "GmlID"
  = Some "mine"
  ∧ "mine" ≠ "Point." +:+ js_to_string (prop Examples.tagged "id").
Proof. split; [by_evaluation | by vm_compute]. Qed.

(** C7 on park 7: [name] is a child element and is not excluded. *)
Lemma gml_exclusion_fidelity_witness :
  ∃ xml,
    Part000.gmlFeature Examples.excluded (Some "EPSG:3857")
      (Part000.mapFeature "http://host" (Examples.park 7 1 2)) = Ok xml
    ∧ "name" ∈ child_elements (feature_element xml "parks")
    ∧ "name" ∉ Examples.excluded.
Proof.
  eexists. split; [by_evaluation|].
  assert ("name" ∈ child_elements (feature_element
    (wrap_member "parks"
       [("@gml:id", xstr "Point.7");
        ("viewerUrl", xstr "http://host/viewer#camera=3,4,18.00z");
        ("x", xstr "1"); ("y", xstr "2"); ("latitude", xstr "3");
        ("longitude", xstr "4");
        ("geom", gmlPoint "urn:ogc:def:crs:EPSG::3857" (Examples.park 7 1 2) "1 2");
        ("name", xstr "Central")]) "parks")) as Hin by by_evaluation.
  split; [exact Hin|].
  refine (gml_exclusion_fidelity Examples.excluded (Some "EPSG:3857")
            (Part000.mapFeature "http://host" (Examples.park 7 1 2)) _ "name" _ Hin).
  by_evaluation.
Defined.

(** C9 at an [srsName] that is neither [EPSG:3857] nor [EPSG:4326]. *)
Lemma geojson_never_unsupported_crs_witness :
  bbox_wf (Examples.request "GEOJSON" None (Some "EPSG:9999"))
  ∧ (Part000.wfsGetFeature Examples.excluded Examples.store "http://host"
       (Some (Examples.request "GEOJSON" None (Some "EPSG:9999"))) []).1
    = Ok ().
Proof.
  split; [apply request_bbox_wf|].
  destruct (geojson_never_unsupported_crs Examples.excluded Examples.store
              "http://host" (Examples.request "GEOJSON" None (Some "EPSG:9999"))
              (request_bbox_wf _ _ _) eq_refl)
    as (doc & -> & _). done.
Defined.

(** * The earlier revision on the same requests *)

(** [getFeature.js] runs the total-count query under a bounding box alone:
    without a count limit the store is still called twice. *)
Example getFeatureJs_counts_under_bbox :
  existsb is_total_count
    (GetFeatureJs.fetchFeatures Examples.store (Examples.request "GML" None None) []).2
  = true.
Proof. by_evaluation. Qed.

(** It hands the whole of [queryParams], [$count] included, to the
    total-count query, and a store that rejects unused parameters fails the
    request. *)
Example getFeatureJs_count_query_keeps_count :
  (GetFeatureJs.fetchFeatures Examples.store
     (Examples.request "GML" (Some 2%Z) None) []).2 !! 1
  = Some (Query (GetFeatureJs.totalCountSql (Examples.request "GML" (Some 2%Z) None))
            [("$param0", VStr "parks"); ("$bbox0", VNum 0%Z); ("$bbox1", VNum 0%Z);
             ("$bbox2", VNum 10%Z); ("$bbox3", VNum 10%Z); ("$count", VNum 2%Z)])
  ∧ (GetFeatureJs.fetchFeatures Examples.store
       (Examples.request "GML" (Some 2%Z) None) []).1
    = Throw "parameters do not match the statement".
Proof. split; by_evaluation. Qed.

(** Its GeoJSON branch copies [geom] like any other column and has no
    [srsName] to read: the coordinates are always [x, y]. *)
Example getFeatureJs_geojson_copies_geom :
  obj_get
    (properties (GetFeatureJs.geojsonFeature
                   (GetFeatureJs.mapFeature "http://host" (Examples.park 7 1 2))))
    "geom"
  = Some "null"
  ∧ coordinates
      (geometry (GetFeatureJs.geojsonFeature
                   (GetFeatureJs.mapFeature "http://host" (Examples.park 7 1 2))))
    = [VNum 1%Z; VNum 2%Z].
Proof. split; by_evaluation. Qed.

(** Its GML branch writes every point in [EPSG:3857] and never throws. *)
Example getFeatureJs_gml_always_3857 :
  obj_get
    (xfields (feature_element
                (GetFeatureJs.gmlFeature Examples.excluded
                   (GetFeatureJs.mapFeature "http://host" (Examples.park 7 1 2)))
                "parks"))
    "geom"
  = Some (gmlPoint "urn:ogc:def:crs:EPSG::3857" (Examples.park 7 1 2) "1 2").
Proof. by_evaluation. Qed.


(** * The scenario of the specification *)

(** Five rows out of twelve matches, GML, [EPSG:4326]: the response is sent
    after the refresh and the two queries, with [numberReturned] 5 and
    [numberMatched] 12, and the first member's position reads
    [<latitude> <longitude>]. *)
Example twelve_parks_limit_five :
  let outcome :=
    Part000.wfsGetFeature Examples.excluded Examples.twelve_parks "http://host"
      (Some (Examples.request "GML" (Some 5%Z) (Some "EPSG:4326"))) [] in
  let collection := xget (Examples.sent_xml outcome) "wfs:FeatureCollection" in
  outcome.1 = Ok ()
  ∧ is_query <$> outcome.2 = [false; true; true; false; false; false]
  ∧ xget collection "@numberReturned" = XVal (VNum 5%Z)
  ∧ xget collection "@numberMatched" = XVal (VNum 12%Z)
  ∧ xget (xget (xget (feature_element (Examples.first_member collection) "parks")
                  "geom") "gml:Point") "gml:pos"
    = xstr "3 4".
Proof. cbv zeta. split_and!; vm_compute; reflexivity. Qed.

(** * Further properties of the handler *)

#[local] Arguments String.eqb : simpl never.
#[local] Arguments String.append : simpl never.

Section RequestFacts.
Context `{JsNumber}.
Variable EXCLUDED_WFS_COLUMNS : gset string.
Implicit Types (p : Parsed) (ds : DataSource) (r feature : row)
  (serverUrl k : string) (srsName : option string) (xml : xobj).





(** X1.  A request first refreshes the data source, once and without
    forcing.  When the parameters were rejected nothing else happens.
    Otherwise the fetch query follows, then the total-count query if it is
    called, and then either the handler threw and the response was not
    touched, or it returned after exactly one header, status 200 and one
    body: it never sets another status and never writes twice. *)
Theorem request_log_shape ds serverUrl (parsed : option Parsed) :
  let outcome :=
    Part000.wfsGetFeature EXCLUDED_WFS_COLUMNS ds serverUrl parsed [] in
  match parsed with
  | None => outcome = (Ok (), [Refresh false])
  | Some p =>
      ∃ calls rest,
        outcome.2 = (Refresh false :: calls ++ rest)%list
        ∧ (calls = queries p
           ∨ calls = [Query (Part000.fetchSql p) (Part000.buildQueryParams p)])
        ∧ ((outcome.1 = Ok ()
            ∧ ∃ content body,
                rest = [ResSet "Content-Type" content; ResStatus 200; ResSend body])
           ∨ (∃ e, outcome.1 = Throw e ∧ rest = []))
  end.
Proof.
  cbv zeta. destruct parsed as [p|]; [|done].
  destruct (fetchFeatures_calls ds p [Refresh false]) as (calls & Hlog & Hcalls).
  exists calls. unfold Part000.wfsGetFeature, refresh.
  rewrite emit_bind_run, io_bind_run. cbn [app].
  destruct (Part000.fetchFeatures ds p [Refresh false]) as [[[rows matched]|e] log];
    cbn [snd] in Hlog; subst log.
  - destruct (String.eqb (outputFormat p) "GEOJSON").
    + rewrite !emit_bind_run, emit_run. cbn [fst snd app]. eexists.
      rewrite <-!app_assoc. split_and!; [done|done|]. left. by eauto.
    + rewrite io_bind_run. unfold lift at 1.
      destruct (map_throwing _ _) as [members|e].
      * rewrite !emit_bind_run, emit_run. cbn [fst snd app]. eexists.
        rewrite <-!app_assoc. split_and!; [done|done|]. left. by eauto.
      * exists []. rewrite app_nil_r. split_and!; [done|done|]. right. by eauto.
  - exists []. rewrite app_nil_r. split_and!; [done|done|]. right. by eauto.
Qed.

(** X2.  When the store rejects the fetch query, the handler throws what
    the store threw, right after that query: the total-count query is not
    tried and the response is not touched. *)
Theorem fetch_failure_propagates ds serverUrl p e :
  run_query ds (Part000.fetchSql p) (Part000.buildQueryParams p) = Throw e →
  Part000.wfsGetFeature EXCLUDED_WFS_COLUMNS ds serverUrl (Some p) []
  = (Throw e,
     [Refresh false; Query (Part000.fetchSql p) (Part000.buildQueryParams p)]).
Proof.
  intros Hthrow. unfold Part000.wfsGetFeature, refresh.
  rewrite emit_bind_run, io_bind_run. unfold Part000.fetchFeatures.
  rewrite io_bind_run, queryFeaturePackage_run by apply NoDup_keys_queryParams.
  by rewrite Hthrow.
Qed.

(** X3.  The fetch query and its mapping name the same parameters, in the
    same order, exactly when the bounding box, if any, has four components:
    the loop binds one slot per component, the statement always names
    four. *)
Theorem bindings_agree_iff_four_components p :
  keys (Part000.buildQueryParams p) = referenced (Part000.fetchSql p) ↔ bbox_wf p.
Proof.
  split; [|apply keys_queryParams].
  rewrite buildQueryParams_eq, !keys_app, keys_typeSlots.
  unfold referenced, Part000.fetchSql. cbn [in_list bbox_clause limit_clause].
  intros Heq%app_inv_head b Hb. rewrite Hb in Heq. cbn [from_option] in Heq.
  rewrite bool_decide_eq_true_2 in Heq by done.
  assert (keys (countSlot (count p))
          = if bool_decide (count p ≠ None) then ["$count"] else []) as Hc
    by by destruct (count p).
  rewrite Hc in Heq. apply app_inv_tail in Heq.
  apply (f_equal length) in Heq. unfold bboxSlots in Heq.
  by rewrite keys_slots, length_imap in Heq.
Qed.

(** X4.  The names the [IN (...)] list is built from are the keys the
    first loop bound, in the same order and all distinct, one per type name:
    the counter of the loop and the index of the [map] agree. *)
Theorem in_list_names_bound_slots (typeNames : list string) :
  keys (bindTypeNames typeNames []).1 = featureSets typeNames
  ∧ (bindTypeNames typeNames []).2 = length typeNames
  ∧ length (featureSets typeNames) = length typeNames
  ∧ NoDup (featureSets typeNames).
Proof.
  rewrite bindTypeNames_eq. cbn [fst snd]. split_and!.
  - apply keys_typeSlots.
  - done.
  - unfold featureSets. apply length_imap.
  - rewrite <-keys_typeSlots. apply (NoDup_keys_slots param_slot VStr _).
Qed.

End RequestFacts.

Section GmlRequestFacts.
Context `{JsNumber}.
Variable EXCLUDED_WFS_COLUMNS : gset string.
Implicit Types (p : Parsed) (ds : DataSource) (r feature : row)
  (serverUrl k : string) (srsName : option string) (xml : xobj).




(** X7.  The feature element of a GML member holds [@gml:id] and one
    entry per column of the feature that is not excluded, and nothing else;
    every such column other than [geom] holds its value as a string, the
    numeric ones included. *)
Theorem gml_feature_element srsName feature xml :
  Part000.gmlFeature EXCLUDED_WFS_COLUMNS srsName feature = Ok xml →
  let element :=
    xfields (feature_element xml (js_to_string (prop feature "featureset"))) in
  (∀ k, k ∈ keys element ↔
        k = "@gml:id" ∨ (k ∈ keys feature ∧ k ∉ EXCLUDED_WFS_COLUMNS))
  ∧ (∀ k, k ∈ keys feature → k ∉ EXCLUDED_WFS_COLUMNS → k ≠ "geom" →
          obj_get element k = Some (xstr (js_to_string (prop feature k)))).
Proof.
  intros Hxml. cbv zeta.
  assert (∀ k, obj_get
    (xfields (feature_element xml (js_to_string (prop feature "featureset")))) k
    = if bool_decide (k ∈ keys feature) && negb (bool_decide (k ∈ EXCLUDED_WFS_COLUMNS))
      then Some (child_or_undefined (gmlChild srsName feature k))
      else if String.eqb "@gml:id" k
           then Some (xstr ("Point." +:+ js_to_string (prop feature "id")))
           else None) as Hget.
  { intros k.
    destruct (gmlFeature_element_get EXCLUDED_WFS_COLUMNS _ _ _ k Hxml)
      as (element & -> & Hget).
    by rewrite feature_element_wrap. }
  split.
  - intros k. rewrite <-obj_get_is_Some, Hget.
    destruct (decide (k ∈ keys feature)) as [Hin|Hin];
      destruct (decide (k ∈ EXCLUDED_WFS_COLUMNS)) as [Hex|Hex];
      rewrite ?(bool_decide_eq_true_2 _ Hin), ?(bool_decide_eq_false_2 _ Hin),
        ?(bool_decide_eq_true_2 _ Hex), ?(bool_decide_eq_false_2 _ Hex);
      cbn [andb negb];
      destruct (String.eqb_spec "@gml:id" k) as [<-|Hne];
      split; intros Hk; eauto;
      try (by destruct Hk as [?|[? ?]]); by destruct Hk.
  - intros k Hin Hex Hgeom. rewrite Hget.
    rewrite (bool_decide_eq_true_2 _ Hin), (bool_decide_eq_false_2 _ Hex).
    cbn [andb negb]. unfold gmlChild. by destruct (String.eqb_spec k "geom").
Qed.

End GmlRequestFacts.

(** ** The decorated row, entry by entry *)

Section DecoratedRow.
Context `{JsNumber}.
Implicit Types (r t l : row) (serverUrl k : string).

Lemma keys_obj_remove {A} (o : obj A) k k' :
  k' ∈ keys (obj_remove o k) ↔ k' ∈ keys o ∧ k' ≠ k.
Proof.
  rewrite <-!obj_get_is_Some, obj_get_remove.
  destruct (String.eqb_spec k k') as [->|Hne].
  - split; [by intros [? ?] | by intros [_ ?]].
  - split; [by intros ?; split | by intros [? _]].
Qed.

Lemma obj_set_cons_eq {A} (o : obj A) k a v : obj_set ((k, a) :: o) k v = (k, v) :: o.
Proof. cbn [obj_set]. by rewrite String.eqb_refl. Qed.

Lemma obj_set_cons_ne {A} (o : obj A) k k' a v :
  k' ≠ k → obj_set ((k', a) :: o) k v = (k', a) :: obj_set o k v.
Proof. intros. cbn [obj_set]. by destruct (String.eqb_spec k' k). Qed.

Lemma obj_get_cons_eq {A} (o : obj A) k v : obj_get ((k, v) :: o) k = Some v.
Proof. cbn [obj_get]. by rewrite String.eqb_refl. Qed.

Lemma obj_get_cons_ne {A} (o : obj A) k k' v :
  k' ≠ k → obj_get ((k', v) :: o) k = obj_get o k.
Proof. intros. cbn [obj_get]. by destruct (String.eqb_spec k' k). Qed.

Lemma obj_remove_cons_eq {A} (o : obj A) k v :
  obj_remove ((k, v) :: o) k = obj_remove o k.
Proof. unfold obj_remove. cbn [List.filter fst]. by rewrite String.eqb_refl. Qed.

Lemma obj_remove_cons_ne {A} (o : obj A) k k' v :
  k' ≠ k → obj_remove ((k', v) :: o) k = (k', v) :: obj_remove o k.
Proof.
  intros. unfold obj_remove. cbn [List.filter fst].
  by destruct (String.eqb_spec k' k).
Qed.

Lemma keys_cons {A} (o : obj A) k v : keys ((k, v) :: o) = k :: keys o.
Proof. done. Qed.

Lemma NoDup_keys_obj_remove {A} (o : obj A) k :
  NoDup (keys o) → NoDup (keys (obj_remove o k)).
Proof.
  induction o as [|[k' v] o IH]; [done|].
  change (keys ((k', v) :: o)) with (k' :: keys o).
  rewrite NoDup_cons. intros [Hnin Hnd].
  destruct (decide (k' = k)) as [->|Hne].
  - rewrite obj_remove_cons_eq. by apply IH.
  - rewrite obj_remove_cons_ne by done.
    change (keys ((k', v) :: obj_remove o k)) with (k' :: keys (obj_remove o k)).
    apply NoDup_cons. split; [|by apply IH].
    intros Hin. apply Hnin. by apply (keys_obj_remove o k k').
Qed.

(** Copying [l] onto an object that starts with [k0]: the first entry
    takes the value [l] has for [k0], the other entries of [l] follow. *)
Lemma spread_onto_head (source l t : row) k0 a :
  (∀ k v, (k, v) ∈ l → obj_get source k = Some v) →
  NoDup (keys l) → k0 ∉ keys t → (∀ k, k ∈ keys t → k ∉ keys l) →
  fold_left (λ o k, obj_set o k (prop source k)) (keys l) ((k0, a) :: t)
  = ((k0, default a (obj_get l k0)) :: t ++ obj_remove l k0)%list.
Proof.
  revert a t. induction l as [|[k v] l IH]; intros a t Hsrc Hnd Hk0 Hdisj.
  - cbn. by rewrite app_nil_r.
  - assert (prop source k = v) as Hv.
    { unfold prop. rewrite (Hsrc k v); [done | apply list_elem_of_here]. }
    rewrite keys_cons in Hnd. apply NoDup_cons in Hnd as [Hnin Hnd].
    assert (∀ k' v', (k', v') ∈ l → obj_get source k' = Some v') as Hsrc'.
    { intros k' v' Hin. apply Hsrc. by apply list_elem_of_further. }
    rewrite keys_cons. cbn [fold_left]. rewrite Hv.
    destruct (decide (k0 = k)) as [->|Hne].
    + rewrite obj_set_cons_eq, obj_get_cons_eq, obj_remove_cons_eq.
      rewrite (IH v t); [|done|done|done|].
      * by rewrite (proj2 (obj_get_None l k) Hnin).
      * intros k' Hin Hl. apply (Hdisj k' Hin). rewrite keys_cons.
        by apply list_elem_of_further.
    + rewrite obj_set_cons_ne, obj_get_cons_ne, obj_remove_cons_ne by done.
      rewrite obj_set_fresh.
      * rewrite (IH a (t ++ [(k, v)])%list); [by rewrite <-app_assoc|done|done| |].
        -- rewrite keys_app, elem_of_app. intros [?|Hin]; [done|].
           apply list_elem_of_singleton in Hin. by destruct Hne.
        -- intros k'. rewrite keys_app, elem_of_app. intros [Hin|Hin].
           ++ intros Hl. apply (Hdisj k' Hin). rewrite keys_cons.
              by apply list_elem_of_further.
           ++ apply list_elem_of_singleton in Hin. by rewrite Hin.
      * intros Hin. apply (Hdisj k Hin). rewrite keys_cons.
        apply list_elem_of_here.
Qed.

Lemma mapFeature_entries_of serverUrl r :
  NoDup (keys r) →
  Part000.mapFeature serverUrl r
  = ("viewerUrl",
     default (VStr (serverUrl +:+ "/viewer#camera="
                    +:+ js_to_string (prop r "latitude") +:+ ","
                    +:+ js_to_string (prop r "longitude") +:+ ",18.00z"))
       (obj_get r "viewerUrl"))
    :: obj_remove r "viewerUrl".
Proof.
  intros Hnd. unfold Part000.mapFeature, spread.
  rewrite (spread_onto_head r r []); [done| |done| |].
  - intros k v. by apply obj_get_elem_of.
  - apply not_elem_of_nil.
  - intros k Hin. by apply elem_of_nil in Hin.
Qed.


(** X9.  Decorating a decorated row changes nothing, even for another
    server: the [viewerUrl] already there wins. *)
Theorem mapFeature_idempotent serverUrl serverUrl' r :
  NoDup (keys r) →
  Part000.mapFeature serverUrl' (Part000.mapFeature serverUrl r)
  = Part000.mapFeature serverUrl r.
Proof.
  intros Hnd. rewrite (mapFeature_entries_of serverUrl r Hnd).
  assert ("viewerUrl" ∉ keys (obj_remove r "viewerUrl")) as Hfresh.
  { rewrite keys_obj_remove. by intros [_ ?]. }
  rewrite mapFeature_entries_of.
  - rewrite obj_get_cons_eq, obj_remove_cons_eq. cbn [default from_option id].
    f_equal. by apply obj_remove_fresh.
  - rewrite keys_cons. apply NoDup_cons. split; [done|].
    by apply NoDup_keys_obj_remove.
Qed.

End DecoratedRow.

(** ** The earlier revision *)

Section EarlierRevision.
Context `{JsNumber}.
Variable EXCLUDED_WFS_COLUMNS : gset string.
Implicit Types (p : Parsed) (ds : DataSource) (r feature : row)
  (k protocol : string) (host : value) (srsName : option string).

Lemma earlier_buildQueryParams p :
  GetFeatureJs.buildQueryParams p = Part000.buildQueryParams (drop_falsy_count p).
Proof.
  unfold GetFeatureJs.buildQueryParams, Part000.buildQueryParams, drop_falsy_count,
    GetFeatureJs.count_given.
  cbn [typeNames bbox count]. destruct (count p) as [c|]; [|done].
  cbn [from_option]. by destruct (num_truthy c).
Qed.

Lemma earlier_fetchSql p :
  GetFeatureJs.fetchSql p = Part000.fetchSql (drop_falsy_count p).
Proof.
  unfold GetFeatureJs.fetchSql, Part000.fetchSql, drop_falsy_count,
    GetFeatureJs.count_given.
  cbn [typeNames bbox count]. f_equal. destruct (count p) as [c|]; [|done].
  cbn [from_option]. by destruct (num_truthy c).
Qed.

Lemma earlier_NoDup_keys p : NoDup (keys (GetFeatureJs.buildQueryParams p)).
Proof. rewrite earlier_buildQueryParams. apply NoDup_keys_queryParams. Qed.

Lemma earlier_count_bound p c :
  count p = Some c → num_truthy c = true →
  obj_get (GetFeatureJs.buildQueryParams p) "$count" = Some (VNum c).
Proof.
  intros Hc Ht. rewrite earlier_buildQueryParams, queryParams_count.
  unfold drop_falsy_count, GetFeatureJs.count_given. cbn [count].
  rewrite Hc. cbn. by rewrite Ht.
Qed.

(** X10.  In [getFeature.js] every query receives the whole of
    [queryParams]: the fetch query first, then, if the fetch query
    succeeded and a truthy count or a bounding box was given, the
    total-count query with the very same mapping, [$count] included when a
    truthy count was given. *)
Theorem earlier_queries ds p log :
  let queryParams := GetFeatureJs.buildQueryParams p in
  let fetch := Query (GetFeatureJs.fetchSql p) queryParams in
  let total := Query (GetFeatureJs.totalCountSql p) queryParams in
  ∃ calls,
    (GetFeatureJs.fetchFeatures ds p log).2 = (log ++ calls)%list
    ∧ match run_query ds (GetFeatureJs.fetchSql p) queryParams with
      | Ok _ =>
          calls = if GetFeatureJs.count_given p || bool_decide (bbox p ≠ None)
                  then [fetch; total] else [fetch]
      | Throw _ => calls = [fetch]
      end
    ∧ (∀ c, count p = Some c → num_truthy c = true →
            obj_get queryParams "$count" = Some (VNum c)).
Proof.
  cbv zeta. unfold GetFeatureJs.fetchFeatures. rewrite io_bind_run.
  rewrite queryFeaturePackage_run by apply earlier_NoDup_keys.
  destruct (run_query ds (GetFeatureJs.fetchSql p) (GetFeatureJs.buildQueryParams p))
    as [rows|e]; [|by eauto using earlier_count_bound].
  destruct (GetFeatureJs.count_given p || bool_decide (bbox p ≠ None));
    [|by eauto using earlier_count_bound].
  rewrite io_bind_run.
  rewrite queryFeaturePackage_run by apply earlier_NoDup_keys.
  eexists. split; [|by eauto using earlier_count_bound].
  destruct (run_query _ _ _) as [rows'|e]; [|by rewrite <-app_assoc].
  rewrite io_bind_run. unfold lift.
  destruct (first_column rows' "COUNT"); by rewrite <-app_assoc.
Qed.

Lemma bbox_wf_drop_falsy_count p : bbox_wf p → bbox_wf (drop_falsy_count p).
Proof. done. Qed.

Lemma count_not_referenced_by_total p :
  bbox_wf p →
  bindings_match (GetFeatureJs.totalCountSql p) (GetFeatureJs.buildQueryParams p)
  = negb (GetFeatureJs.count_given p).
Proof.
  intros Hwf. destruct (GetFeatureJs.count_given p) eqn:Hgiven; cbn [negb].
  - unfold bindings_match. apply andb_false_intro1.
    destruct (forallb _ _) eqn:Hall; [|done].
    rewrite forallb_forall in Hall.
    assert (In "$count" (keys (GetFeatureJs.buildQueryParams p))) as Hin.
    { apply list_elem_of_In, obj_get_is_Some.
      unfold GetFeatureJs.count_given in Hgiven.
      destruct (count p) as [c|] eqn:Hc; [|done].
      rewrite (earlier_count_bound p c); [by eauto|done|done]. }
    apply Hall, bool_decide_eq_true in Hin.
    unfold referenced, GetFeatureJs.totalCountSql in Hin.
    cbn [in_list bbox_clause limit_clause] in Hin.
    rewrite app_nil_r, elem_of_app in Hin. destruct Hin as [Hin|Hin].
    + rewrite <-keys_typeSlots in Hin. by apply count_not_typeSlots in Hin.
    + destruct (bool_decide (bbox p ≠ None)); [|by apply elem_of_nil in Hin].
      by repeat (apply elem_of_cons in Hin as [?|Hin]; [done|]);
        apply elem_of_nil in Hin.
  - apply bindings_match_keys. rewrite earlier_buildQueryParams.
    rewrite (keys_queryParams _ (bbox_wf_drop_falsy_count p Hwf)).
    unfold referenced, Part000.fetchSql, GetFeatureJs.totalCountSql, drop_falsy_count.
    cbn [in_list bbox_clause limit_clause typeNames bbox count].
    by rewrite Hgiven.
Qed.

(** X11.  Against a store that rejects parameters the statement does not
    name, [getFeature.js] fails every request with a truthy count on a
    well-formed filter: the fetch query succeeds, the total-count query is
    rejected because of [$count], and nothing is written to the response. *)
Theorem earlier_count_request_fails ds protocol host p :
  bbox_wf p → GetFeatureJs.count_given p = true → strict_binding ds = true →
  GetFeatureJs.wfsGetFeature EXCLUDED_WFS_COLUMNS ds protocol host (Some p) []
  = (Throw "parameters do not match the statement",
     [Refresh false;
      Query (GetFeatureJs.fetchSql p) (GetFeatureJs.buildQueryParams p);
      Query (GetFeatureJs.totalCountSql p) (GetFeatureJs.buildQueryParams p)]).
Proof.
  intros Hwf Hgiven Hstrict.
  assert (run_query ds (GetFeatureJs.fetchSql p) (GetFeatureJs.buildQueryParams p)
          = Ok (fetched ds (drop_falsy_count p))) as Hfetch.
  { rewrite earlier_fetchSql, earlier_buildQueryParams.
    by apply run_query_fetch, bbox_wf_drop_falsy_count. }
  assert (run_query ds (GetFeatureJs.totalCountSql p) (GetFeatureJs.buildQueryParams p)
          = Throw "parameters do not match the statement") as Htotal.
  { unfold run_query.
    by rewrite Hstrict, (count_not_referenced_by_total p Hwf), Hgiven. }
  unfold GetFeatureJs.wfsGetFeature, refresh.
  rewrite emit_bind_run, io_bind_run. unfold GetFeatureJs.fetchFeatures.
  rewrite io_bind_run, queryFeaturePackage_run by apply earlier_NoDup_keys.
  rewrite Hfetch, Hgiven. cbn [orb].
  rewrite io_bind_run, queryFeaturePackage_run by apply earlier_NoDup_keys.
  by rewrite Htotal.
Qed.

(** X12.  [getFeature.js] handles a falsy count, zero for one, like no
    count at all: no [LIMIT], no [$count], the same calls and the same
    response. *)
Theorem earlier_falsy_count_is_no_count ds protocol host p log :
  GetFeatureJs.wfsGetFeature EXCLUDED_WFS_COLUMNS ds protocol host (Some p) log
  = GetFeatureJs.wfsGetFeature EXCLUDED_WFS_COLUMNS ds protocol host
      (Some (drop_falsy_count p)) log
  ∧ (GetFeatureJs.count_given p = false →
     count (drop_falsy_count p) = None
     ∧ limit_clause (GetFeatureJs.fetchSql p) = false
     ∧ obj_get (GetFeatureJs.buildQueryParams p) "$count" = None).
Proof.
  split.
  - destruct p as [tn bb fmt [c|] srs]; [|done].
    unfold drop_falsy_count, GetFeatureJs.count_given. cbn [count from_option].
    destruct (num_truthy c) eqn:Ht; [done|].
    unfold GetFeatureJs.wfsGetFeature, GetFeatureJs.fetchFeatures,
      GetFeatureJs.buildQueryParams, GetFeatureJs.fetchSql, GetFeatureJs.totalCountSql,
      GetFeatureJs.count_given.
    cbn [typeNames bbox outputFormat count srsName from_option].
    by rewrite Ht.
  - intros Hgiven. split_and!.
    + unfold drop_falsy_count. cbn [count]. by rewrite Hgiven.
    + done.
    + rewrite earlier_buildQueryParams, queryParams_count.
      unfold drop_falsy_count. cbn [count]. by rewrite Hgiven.
Qed.

End EarlierRevision.

Section EarlierSerializers.
Context `{JsNumber}.
Variable EXCLUDED_WFS_COLUMNS : gset string.
Implicit Types (feature r : row) (k : string) (srsName : option string).

Lemma earlier_properties_get feature k :
  obj_get (properties (GetFeatureJs.geojsonFeature feature)) k
  = if bool_decide (k ∈ keys feature)
    then Some (js_to_string (prop feature k))
    else if String.eqb "GmlID" k
         then Some ("Point." +:+ js_to_string (prop feature "id"))
         else None.
Proof.
  unfold GetFeatureJs.geojsonFeature. cbn [properties].
  rewrite (loop_get (λ _, false) (λ key, js_to_string (prop feature key))).
  by rewrite andb_true_r.
Qed.

(** X13.  The GeoJSON feature of [getFeature.js]: every column of the
    feature, [geom] included, is a string-valued property; [GmlID] is
    [Point.<id>] unless a column has that name; the keys of [properties]
    are [GmlID] and the columns; the coordinates are the feature's
    [x, y]. *)
Theorem earlier_geojson_feature feature :
  let emitted := GetFeatureJs.geojsonFeature feature in
  (∀ k, k ∈ keys feature →
        obj_get (properties emitted) k = Some (js_to_string (prop feature k)))
  ∧ ("GmlID" ∉ keys feature →
     obj_get (properties emitted) "GmlID"
     = Some ("Point." +:+ js_to_string (prop feature "id")))
  ∧ (∀ k, k ∈ keys (properties emitted) ↔ k = "GmlID" ∨ k ∈ keys feature)
  ∧ coordinates (geometry emitted) = [prop feature "x"; prop feature "y"].
Proof.
  cbv zeta. split_and!.
  - intros k Hin. by rewrite earlier_properties_get, bool_decide_eq_true_2.
  - intros Hnin. by rewrite earlier_properties_get, bool_decide_eq_false_2.
  - intros k. rewrite <-obj_get_is_Some, earlier_properties_get.
    case_bool_decide as Hin; [by split; eauto|].
    destruct (String.eqb_spec "GmlID" k) as [<-|Hne].
    + split; eauto.
    + split; [by intros [? ?] | by intros [?|?]].
  - done.
Qed.

Lemma earlier_gmlColumn feature (featureXml : xobj) k :
  Part000.gmlColumn EXCLUDED_WFS_COLUMNS (Some "EPSG:3857") feature featureXml k
  = Ok (GetFeatureJs.gmlColumn EXCLUDED_WFS_COLUMNS feature featureXml k).
Proof.
  unfold Part000.gmlColumn, GetFeatureJs.gmlColumn.
  case_bool_decide; [done|]. destruct (String.eqb k "geom"); [|done].
  by rewrite bool_decide_eq_true_2.
Qed.

Lemma earlier_gmlFeature feature :
  Part000.gmlFeature EXCLUDED_WFS_COLUMNS (Some "EPSG:3857") feature
  = Ok (GetFeatureJs.gmlFeature EXCLUDED_WFS_COLUMNS feature).
Proof.
  unfold Part000.gmlFeature, GetFeatureJs.gmlFeature.
  generalize (xset
    (XObj [("wfs:member", XObj [("@xmlns:wfs", xstr "http://www.opengis.net/wfs/2.0")])])
    "wfs:member"
    (xset
       (xget
          (XObj [("wfs:member", XObj [("@xmlns:wfs", xstr "http://www.opengis.net/wfs/2.0")])])
          "wfs:member")
       (js_to_string (prop feature "featureset"))
       (XObj [("@gml:id", xstr ("Point." +:+ js_to_string (prop feature "id")))]))).
  induction (keys feature) as [|k ks IH]; intros featureXml; [done|].
  cbn [for_of fold_left]. rewrite earlier_gmlColumn. apply IH.
Qed.


(** X15.  The two revisions agree where [srsName] plays no part: they
    decorate a row alike; under [EPSG:3857] the GML member of [part_000] is
    the member of [getFeature.js]; unless [srsName] is [EPSG:4326] the
    GeoJSON coordinates are the same; and the GeoJSON properties differ at
    most at [geom]. *)
Theorem revisions_agree serverUrl srsName feature :
  GetFeatureJs.mapFeature serverUrl feature = Part000.mapFeature serverUrl feature
  ∧ Part000.gmlFeature EXCLUDED_WFS_COLUMNS (Some "EPSG:3857") feature
    = Ok (GetFeatureJs.gmlFeature EXCLUDED_WFS_COLUMNS feature)
  ∧ (srsName ≠ Some "EPSG:4326" →
     coordinates (geometry (Part000.geojsonFeature srsName feature))
     = coordinates (geometry (GetFeatureJs.geojsonFeature feature)))
  ∧ (∀ k, k ≠ "geom" →
          obj_get (properties (Part000.geojsonFeature srsName feature)) k
          = obj_get (properties (GetFeatureJs.geojsonFeature feature)) k).
Proof.
  split_and!.
  - done.
  - apply earlier_gmlFeature.
  - intros Hsrs. by rewrite geojson_coordinates, bool_decide_eq_false_2.
  - intros k Hgeom. rewrite geojson_properties_get, earlier_properties_get.
    destruct (String.eqb_spec k "geom"); [done|]. by rewrite andb_true_r.
Qed.

End EarlierSerializers.

(** ** Formats and points *)

Section FormatFacts.
Context `{JsNumber}.
Implicit Types (p : Parsed) (ds : DataSource) (r feature : row)
  (serverUrl k : string) (srsName : option string) (xml : xobj)
  (log : list Event).

(** X16.  A GML member that was built shows which reference system was
    asked for: when the feature has a [geom] column that is not excluded,
    [srsName] was [EPSG:3857] and the point is at [<x> <y>], or it was
    [EPSG:4326] and the point is at [<latitude> <longitude>]; either way
    the point carries [srsDimension] 2 and the id [GmlPoint.<id>]. *)
Theorem gml_member_point (EXCLUDED_WFS_COLUMNS : gset string) srsName feature xml :
  Part000.gmlFeature EXCLUDED_WFS_COLUMNS srsName feature = Ok xml →
  has_geom feature → "geom" ∉ EXCLUDED_WFS_COLUMNS →
  ∃ urn pos,
    obj_get
      (xfields (feature_element xml (js_to_string (prop feature "featureset"))))
      "geom"
    = Some (XObj [("gml:Point",
                   XObj [("@srsName", xstr urn);
                         ("@srsDimension", XVal (VNum (num_of_nat 2)));
                         ("@gml:id",
                          xstr ("GmlPoint." +:+ js_to_string (prop feature "id")));
                         ("gml:pos", xstr pos)])])
    ∧ ((srsName = Some "EPSG:3857" ∧ urn = "urn:ogc:def:crs:EPSG::3857"
        ∧ pos = js_to_string (prop feature "x") +:+ " "
                +:+ js_to_string (prop feature "y"))
       ∨ (srsName = Some "EPSG:4326" ∧ urn = "urn:ogc:def:crs:EPSG::4326"
          ∧ pos = js_to_string (prop feature "latitude") +:+ " "
                  +:+ js_to_string (prop feature "longitude"))).
Proof.
  intros Hxml Hgeom Hex.
  destruct (decide (srsName = Some "EPSG:3857")) as [H3857|H3857].
  - destruct (gmlFeature_geom EXCLUDED_WFS_COLUMNS srsName feature
                (gmlPoint "urn:ogc:def:crs:EPSG::3857" feature
                   (js_to_string (prop feature "x") +:+ " "
                    +:+ js_to_string (prop feature "y"))) Hgeom Hex)
      as (xml' & Hxml' & Hget).
    { unfold gmlGeometry. by rewrite bool_decide_eq_true_2. }
    rewrite Hxml in Hxml'. injection Hxml' as <-.
    eexists _, _. split; [exact Hget|]. by left.
  - destruct (decide (srsName = Some "EPSG:4326")) as [H4326|H4326].
    + destruct (gmlFeature_geom EXCLUDED_WFS_COLUMNS srsName feature
                  (gmlPoint "urn:ogc:def:crs:EPSG::4326" feature
                     (js_to_string (prop feature "latitude") +:+ " "
                      +:+ js_to_string (prop feature "longitude"))) Hgeom Hex)
        as (xml' & Hxml' & Hget).
      { unfold gmlGeometry.
        by rewrite bool_decide_eq_false_2, bool_decide_eq_true_2. }
      rewrite Hxml in Hxml'. injection Hxml' as <-.
      eexists _, _. split; [exact Hget|]. by right.
    + by rewrite (gmlFeature_unsupported EXCLUDED_WFS_COLUMNS srsName feature)
        in Hxml.
Qed.

(** X17.  The excluded columns play no part in a GeoJSON request: under
    any two sets the handler makes the same calls and sends the same
    document. *)
Theorem geojson_request_ignores_exclusions (excluded excluded' : gset string)
    ds serverUrl p log :
  outputFormat p = "GEOJSON" →
  Part000.wfsGetFeature excluded ds serverUrl (Some p) log
  = Part000.wfsGetFeature excluded' ds serverUrl (Some p) log.
Proof.
  intros Hfmt. unfold Part000.wfsGetFeature, refresh.
  rewrite !emit_bind_run, !io_bind_run.
  destruct (Part000.fetchFeatures ds p _) as [[[rows matched]|e] log']; [|done].
  by rewrite Hfmt, String.eqb_refl.
Qed.

(** X18.  The format test is an exact comparison with [GEOJSON]: every
    other value of [outputFormat], [geojson] in lower case for one, is
    answered like [GML]. *)
Theorem other_formats_are_gml (EXCLUDED_WFS_COLUMNS : gset string)
    ds serverUrl p log :
  outputFormat p ≠ "GEOJSON" →
  Part000.wfsGetFeature EXCLUDED_WFS_COLUMNS ds serverUrl (Some p) log
  = Part000.wfsGetFeature EXCLUDED_WFS_COLUMNS ds serverUrl
      (Some (with_format p "GML")) log.
Proof.
  intros Hfmt. unfold Part000.wfsGetFeature, refresh.
  rewrite !emit_bind_run, !io_bind_run.
  change (Part000.fetchFeatures ds (with_format p "GML"))
    with (Part000.fetchFeatures ds p).
  destruct (Part000.fetchFeatures ds p _) as [[[rows matched]|e] log']; [|done].
  cbn [outputFormat with_format srsName].
  destruct (String.eqb_spec (outputFormat p) "GEOJSON"); [done|].
  by destruct (String.eqb_spec "GML" "GEOJSON").
Qed.


End FormatFacts.

(** ** The further properties on the concrete requests *)


Lemma fetch_failure_propagates_witness :
  run_query Examples.store (Part000.fetchSql Examples.short_bbox_request)
    (Part000.buildQueryParams Examples.short_bbox_request)
  = Throw "parameters do not match the statement"
  ∧ Part000.wfsGetFeature Examples.excluded Examples.store "http://host"
      (Some Examples.short_bbox_request) []
    = (Throw "parameters do not match the statement",
       [Refresh false;
        Query (Part000.fetchSql Examples.short_bbox_request)
          (Part000.buildQueryParams Examples.short_bbox_request)]).
Proof.
  assert (run_query Examples.store (Part000.fetchSql Examples.short_bbox_request)
            (Part000.buildQueryParams Examples.short_bbox_request)
          = Throw "parameters do not match the statement") as Hrun
    by by_evaluation.
  split; [exact Hrun|].
  exact (fetch_failure_propagates Examples.excluded Examples.store "http://host"
           Examples.short_bbox_request _ Hrun).
Defined.



Lemma gml_feature_element_witness :
  Part000.gmlFeature Examples.excluded (Some "EPSG:3857") Examples.decorated_park
  = Ok (Examples.member_of (Some "EPSG:3857"))
  ∧ obj_get (xfields (feature_element (Examples.member_of (Some "EPSG:3857")) "parks"))
      "x"
    = Some (xstr "1").
Proof.
  assert (Part000.gmlFeature Examples.excluded (Some "EPSG:3857")
            Examples.decorated_park
          = Ok (Examples.member_of (Some "EPSG:3857"))) as Hxml by by_evaluation.
  split; [exact Hxml|].
  apply (proj2 (gml_feature_element Examples.excluded _ _ _ Hxml) "x");
    [by_evaluation | by_evaluation | done].
Defined.


Lemma mapFeature_idempotent_witness :
  NoDup (keys (Examples.park 7 1 2))
  ∧ Part000.mapFeature "http://elsewhere" Examples.decorated_park
    = Examples.decorated_park.
Proof.
  assert (NoDup (keys (Examples.park 7 1 2))) as Hnd by by_evaluation.
  split; [exact Hnd|].
  exact (mapFeature_idempotent "http://host" "http://elsewhere"
           (Examples.park 7 1 2) Hnd).
Defined.

Lemma earlier_count_request_fails_witness :
  bbox_wf (Examples.request "GML" (Some 2%Z) None)
  ∧ GetFeatureJs.count_given (Examples.request "GML" (Some 2%Z) None) = true
  ∧ strict_binding Examples.store = true
  ∧ (GetFeatureJs.wfsGetFeature Examples.excluded Examples.store "http"
       (VStr "host") (Some (Examples.request "GML" (Some 2%Z) None)) []).1
    = Throw "parameters do not match the statement".
Proof.
  split_and!; [apply request_bbox_wf | done | done |].
  by rewrite (earlier_count_request_fails Examples.excluded Examples.store "http"
                (VStr "host") (Examples.request "GML" (Some 2%Z) None)
                (request_bbox_wf _ _ _) eq_refl eq_refl).
Defined.

Lemma gml_member_point_witness :
  has_geom Examples.decorated_park ∧ ("geom" ∉ Examples.excluded)
  ∧ ∃ urn pos,
      obj_get (xfields (feature_element (Examples.member_of (Some "EPSG:4326")) "parks"))
        "geom"
      = Some (gmlPoint urn Examples.decorated_park pos)
      ∧ urn = "urn:ogc:def:crs:EPSG::4326" ∧ pos = "3 4".
Proof.
  assert (has_geom Examples.decorated_park) as Hgeom
    by (unfold has_geom; by_evaluation).
  assert ("geom" ∉ Examples.excluded) as Hex by by_evaluation.
  assert (Part000.gmlFeature Examples.excluded (Some "EPSG:4326")
            Examples.decorated_park
          = Ok (Examples.member_of (Some "EPSG:4326"))) as Hxml by by_evaluation.
  split_and!; [done|done|].
  destruct (gml_member_point Examples.excluded _ _ _ Hxml Hgeom Hex)
    as (urn & pos & Hget & [([=] & _ & _)|(_ & -> & ->)]).
  eexists _, _. split; [exact Hget|]. split; by_evaluation.
Defined.

Lemma geojson_request_ignores_exclusions_witness :
  Part000.wfsGetFeature Examples.excluded Examples.store "http://host"
    (Some (Examples.request "GEOJSON" None None)) []
  = Part000.wfsGetFeature ∅ Examples.store "http://host"
      (Some (Examples.request "GEOJSON" None None)) [].
Proof.
  exact (geojson_request_ignores_exclusions Examples.excluded ∅ Examples.store
           "http://host" (Examples.request "GEOJSON" None None) [] eq_refl).
Defined.

Lemma other_formats_are_gml_witness :
  Part000.wfsGetFeature Examples.excluded Examples.store "http://host"
    (Some (Examples.request "geojson" None (Some "EPSG:3857"))) []
  = Part000.wfsGetFeature Examples.excluded Examples.store "http://host"
      (Some (Examples.request "GML" None (Some "EPSG:3857"))) [].
Proof.
  apply (other_formats_are_gml Examples.excluded Examples.store "http://host"
           (Examples.request "geojson" None (Some "EPSG:3857")) []).
  done.
Defined.

